(** * Settlement and concurrency-control core of the Radix spin bot

    A shallow embedding of the wagering core of [bot_fixed.py] and of the
    ledger helpers of [radix_integration.py].

    Conventions of the embedding.
    - Python [float] amounts are idealised as exact rationals [Q]; Python's
      [min], [max] and [abs] are [Qmin], [Qmax] and [Qabs], which pick the
      same argument as Python does on ties.
    - Python [int] values (user handles, play counts, dice values) are [Z].
    - The module-level dictionary [ongoing_spins] is a [gmap Z bool]; the
      [users] table is a [gmap Z Account].
    - Everything outside the process (ledger gateway, chat platform dice) is
      an oracle of the environment [Env]; every call that crosses the ledger
      boundary is appended to the trace [ledger_calls].
    - [async] handlers are state transformers over [World] that may raise. *)

From Stdlib Require Import QArith Qminmax Qabs Lqa ZArith List String Bool Lia.
From stdpp Require Import base option gmap strings.
Import ListNotations.

Open Scope Q_scope.
Open Scope string_scope.

(** ** Comparisons on amounts, as booleans *)

(** [x < y] *)
Definition Qltb (x y : Q) : bool := negb (Qle_bool y x).
(** [x > y] *)
Definition Qgtb (x y : Q) : bool := Qltb y x.
(** [x != y] *)
Definition Qneqb (x y : Q) : bool := negb (Qeq_bool x y).

(** ** Game settings ([bot_fixed.py], module level) *)

Definition MIN_SPIN_AMOUNT : Q := 1.0.
Definition MAX_SPIN_AMOUNT : Q := 1000.0.

(** The three game modes.  The handlers select a mode through the two
    keyword flags of [calculate_max_bet] and [get_spin_amount]. *)
Inductive Variant := Standard | SevensOnly | Die.

Definition is_seven_spin_of (v : Variant) : bool :=
  match v with SevensOnly => true | _ => false end.
Definition is_die_of (v : Variant) : bool :=
  match v with Die => true | _ => false end.

(** ** Wager validator: [calculate_max_bet] *)

Section MaxBet.
(** [MAX_WIN_PERCENTAGE = float(os.getenv("MAX_WIN_PERCENTAGE", 5))] *)
Variable MAX_WIN_PERCENTAGE : Q.

Definition calculate_max_bet (game_balance : Q)
    (is_seven_spin is_die : bool) : Q :=
  let max_win_percentage := MAX_WIN_PERCENTAGE in
  let multiplier :=
    if is_seven_spin then 48.0 else (if is_die then 5.0 else 12.0) in
  let max_win := Qmax 0 (game_balance * (max_win_percentage / 100)) in
  let max_bet := Qmin MAX_SPIN_AMOUNT (max_win / multiplier) in
  if is_seven_spin then Qmin max_bet (MAX_SPIN_AMOUNT / 4) else max_bet.
End MaxBet.

(** ** Outcome rules and settlement calculator

    [process_multiple_spins], [process_multiple_spins_7s] and
    [process_multiple_die_rolls] are three copies of one routine that differ
    in the winning test and in the multiplier only; [GameRules] holds the two
    parts that differ. *)

Record GameRules := {
  is_win : Z -> bool;      (* the test on [dice_msg.dice.value] *)
  multiplier : Q           (* the factor applied to [amount] on a win *)
}.

(** [dice_value in [1, 22, 43, 64]], [amount * 12.0] *)
Definition spin_rules : GameRules :=
  {| is_win := fun d => (d =? 1)%Z || (d =? 22)%Z || (d =? 43)%Z || (d =? 64)%Z;
     multiplier := 12.0 |}.
(** [dice_value == 64], [amount * 48.0] *)
Definition spin_7s_rules : GameRules :=
  {| is_win := fun d => (d =? 64)%Z; multiplier := 48.0 |}.
(** [dice_value == 6], [amount * 5.0] *)
Definition die_rules : GameRules :=
  {| is_win := fun d => (d =? 6)%Z; multiplier := 5.0 |}.

Definition rules_of (v : Variant) : GameRules :=
  match v with
  | Standard => spin_rules
  | SevensOnly => spin_7s_rules
  | Die => die_rules
  end.

(** The result of a play batch as [process_multiple_spins] computes it. *)
Record Settlement := {
  winning_spins : list Z;
  total_winnings : Q;
  total_cost : Q;
  net_result : Q
}.

(** The loop [for i, dice_msg in enumerate(dice_messages)]: the accumulator
    is [(winning_spins, total_winnings)], [i] counts from 0. *)
Fixpoint process_results (r : GameRules) (amount : Q) (i : Z)
    (dice_values : list Z) (acc : list Z * Q) : list Z * Q :=
  match dice_values with
  | [] => acc
  | dice_value :: rest =>
      let acc' :=
        if is_win r dice_value
        then ((fst acc ++ [(i + 1)%Z])%list, snd acc + amount * multiplier r)
        else acc in
      process_results r amount (i + 1)%Z rest acc'
  end.

(** The part of [process_multiple_spins] between the animation delay and the
    submission: the results loop, then [total_cost = amount * num_spins] and
    [net_result = total_winnings - total_cost]. *)
Definition settle (r : GameRules) (amount : Q) (num_spins : Z)
    (dice_values : list Z) : Settlement :=
  let '(winning, winnings) := process_results r amount 0 dice_values ([], 0) in
  let cost := amount * inject_Z num_spins in
  {| winning_spins := winning;
     total_winnings := winnings;
     total_cost := cost;
     net_result := winnings - cost |}.

(** ** Transaction manifests ([radix_integration.py])

    The Python functions format a manifest text; the embedding keeps the
    instructions and the amounts that are printed into it. *)

Inductive Instruction :=
  | LockFee (account : string) (fee : Q)
  | Withdraw (account : string) (amount : Q)
  | TakeFromWorktop (amount : Q) (bucket : string)
  | TakeAllFromWorktop (bucket : string)
  | TryDepositOrAbort (account : string) (bucket : string).

Definition Manifest := list Instruction.

Definition settle_spin_manifest (game_address player_address : string)
    (net_result : Q) : Manifest :=
  if Qgtb net_result 0 then
    (* Game pays player *)
    [ LockFee game_address 0.5;
      Withdraw game_address net_result;
      TakeFromWorktop net_result "winnings";
      TryDepositOrAbort player_address "winnings" ]
  else
    (* Player pays game *)
    [ LockFee player_address 0.5;
      Withdraw player_address (Qabs net_result);
      TakeFromWorktop (Qabs net_result) "payment";
      TryDepositOrAbort game_address "payment" ].

Definition withdraw_tokens_manifest (player_address destination_address : string)
    (amount : Q) : Manifest :=
  [ LockFee player_address 1;
    Withdraw player_address (amount - 1.000001);
    TakeAllFromWorktop "tokens";
    TryDepositOrAbort destination_address "tokens" ].

(** What a manifest moves: every [(account, amount)] it withdraws and every
    account it deposits to, in order. *)
Definition withdrawals (m : Manifest) : list (string * Q) :=
  flat_map (fun i => match i with Withdraw a q => [(a, q)] | _ => [] end) m.
Definition deposits (m : Manifest) : list string :=
  flat_map (fun i => match i with TryDepositOrAbort a _ => [a] | _ => [] end) m.
Definition fee_payers (m : Manifest) : list string :=
  flat_map (fun i => match i with LockFee a _ => [a] | _ => [] end) m.

(** ** Status polling: [check_transaction_status] *)

(** One answer of the gateway's [/transaction/status] endpoint: the request
    raises, or it returns a JSON object whose ["status"] and
    ["error_message"] fields may be missing. *)
Inductive PollResponse :=
  | PollRaises
  | PollJson (status : option string) (error_message : option string).

(** The dictionaries that [check_transaction_status] returns, restricted to
    the two keys its caller reads. *)
Record StatusResult := {
  sr_status : option string;
  sr_error_message : option string
}.

(** [status in ["CommittedSuccess", "CommittedFailure", "Rejected"]] *)
Definition is_final_status (status : string) : bool :=
  bool_decide (status = "CommittedSuccess")
  || bool_decide (status = "CommittedFailure")
  || bool_decide (status = "Rejected").

(** [for _ in range(10)]: [attempts] polls are left, [i] were made. *)
Fixpoint poll_status (polls : nat -> PollResponse) (attempts i : nat)
    : StatusResult :=
  match attempts with
  | O =>
      {| sr_status := Some "Unknown";
         sr_error_message :=
           Some "Timed out waiting for transaction confirmation" |}
  | S attempts' =>
      match polls i with
      | PollJson st em =>
          if is_final_status (default "Unknown" st)
          then {| sr_status := st; sr_error_message := em |}
          else poll_status polls attempts' (S i)
      | PollRaises => poll_status polls attempts' (S i)
      end
  end.

Definition check_transaction_status (SIMULATION_MODE : bool)
    (polls : nat -> PollResponse) : StatusResult :=
  if SIMULATION_MODE
  then {| sr_status := Some "CommittedSuccess"; sr_error_message := None |}
  else poll_status polls 10 0.

(** ** Persistent tables, process state and the trace of ledger calls *)

(** A row of the [users] table (the key [telegram_id] is the map key). *)
Record Account := {
  radix_address : string;
  private_key : string;
  public_key : string
}.

(** The row [id = 1] of [game_stats]. *)
Record GameStats := {
  game_address : string;
  game_private_key : string;
  game_public_key : string;
  total_winnings_paid : Q
}.

(** A row of the append-only [transactions] table. *)
Record TransactionRecord := {
  tr_telegram_id : Z;
  tr_action : string;
  tr_amount : Q
}.

(** The calls that cross the ledger boundary. *)
Inductive LedgerCall :=
  | BalanceQuery (address : string)
  | SubmitTransaction (manifest : Manifest)
      (sender_address sender_private_key sender_public_key : string).

(** The dictionary returned by [submit_transaction_with_manifest]: each field
    is a key that may be present. *)
Record SubmitResult := {
  res_error : option string;
  res_transaction_id : option string;
  res_status : option string;
  res_error_message : option string
}.

(** What the chat surface is asked to show; numbers are kept unformatted. *)
Inductive Message :=
  | MsgMaintenance
  | MsgWrongChat
  | MsgNotWhitelisted
  | MsgNoAccount
  | MsgBalanceBelowMinimum (user_balance : Q)
  | MsgMinimumSpin
  | MsgExceedsMaximum (amount max_bet : Q)
  | MsgInvalidAmount
  | MsgAmountError
  | MsgSpinInProgress
  | MsgSpinUsage
  | MsgSpinCountRange
  | MsgSpinCountInvalid
  | MsgInsufficientBalance (num_spins : Z) (total_needed balance : Q)
  | MsgRolling (num_spins : Z) (amount : Q)
  | MsgDice (value : Z)
  | MsgAccountNotFound
  | MsgGameNotConfigured
  | MsgTransactionFailed (error : string)
  | MsgResults (s : Settlement) (fee_deducted : bool)
  | MsgProcessingError
  | MsgWithdrawInProgress
  | MsgWithdrawUsage
  | MsgWithdrawPositive
  | MsgWithdrawInvalidAmount
  | MsgWithdrawInsufficient (balance : Q)
  | MsgWithdrawMinimum
  | MsgWithdrawTransactionFailed (error : string)
  | MsgWithdrawSuccess (actual_amount : Q) (to_address : string)
      (fee : Q) (transaction_id : string)
  | MsgWithdrawNotCompleted (error_msg : string)
  | MsgWithdrawError.

(** A play batch handed to [asyncio.create_task]. *)
Record PlayBatch := {
  pb_amount : Q;
  pb_user_id : Z;
  pb_num_spins : Z
}.

Record World := {
  ongoing_spins : gmap Z bool;
  MAINTENANCE_MODE : bool;
  users : gmap Z Account;
  game_stats : option GameStats;
  whitelist : list Z;
  transactions : list TransactionRecord;
  ledger_calls : list LedgerCall;
  sent : list Message;
  tasks : list PlayBatch
}.

(** ** Configuration and environment *)

Record Config := {
  MAX_WIN_PERCENTAGE : Q;
  GAME_OWNER_TELEGRAM_ID : Z;
  SIMULATION_MODE : bool;
  USING_REAL_TOOLKIT : bool
}.

(** What the network does with one submission: building, signing or sending
    raises (or the keys cannot be read), or the transaction is sent and the
    status endpoint answers the polls. *)
Inductive GatewayBehaviour :=
  | GatewayError (error : string)
  | GatewaySubmitted (transaction_id : string) (polls : nat -> PollResponse).

(** The oracles are indexed by the number of ledger calls made before. *)
Record Env := {
  ledger_balance : nat -> string -> option Q;   (* [None]: the query raises *)
  gateway : nat -> GatewayBehaviour;
  dice : nat -> Z                               (* value of the i-th dice *)
}.

(** An incoming chat update, as far as the handlers read it. *)
Record Update := {
  effective_user_id : Z;
  chat_type : string;
  (* [chat.username and chat.username.lower() == ALLOWED_GROUP_USERNAME.lower()] *)
  chat_username_allowed : bool;
  (* [update.message.text.split()[0].lower()] *)
  command : string
}.

(** One element of [context.args] with what Python's conversions make of it. *)
Record Token := {
  tok_text : string;
  tok_is_max : bool;          (* [arg.lower() == "max"] *)
  tok_float : option Q;       (* [float(arg)], [None] on [ValueError] *)
  tok_int : option Z          (* [int(arg)], [None] on [ValueError] *)
}.

(** ** Handlers as state transformers that may raise *)

Inductive Result (A : Type) :=
  | Ok (a : A)
  | Raise (e : string).
Arguments Ok {A} a.
Arguments Raise {A} e.

Definition M (A : Type) : Type := World -> Result A * World.

#[global] Instance M_ret : MRet M := fun A a w => (Ok a, w).
#[global] Instance M_bind : MBind M := fun A B f m w =>
  match m w with
  | (Ok a, w') => f a w'
  | (Raise e, w') => (Raise e, w')
  end.

Definition raise {A : Type} (e : string) : M A := fun w => (Raise e, w).
Definition get_world : M World := fun w => (Ok w, w).
Definition modify (f : World -> World) : M unit := fun w => (Ok tt, f w).

(** [try: body except Exception as e: handler(e)] *)
Definition try_except {A : Type} (body : M A) (handler : string -> M A) : M A :=
  fun w =>
    match body w with
    | (Ok a, w') => (Ok a, w')
    | (Raise e, w') => handler e w'
    end.

(** [try: body finally: final]; a [return] inside [body] is an [Ok]. *)
Definition try_finally {A : Type} (body : M A) (final : M unit) : M A :=
  fun w =>
    let '(r, w') := body w in
    match final w' with
    | (Ok _, w'') => (r, w'')
    | (Raise e, w'') => (Raise e, w'')
    end.

Definition set_ongoing_spins (f : gmap Z bool -> gmap Z bool) (w : World) : World :=
  {| ongoing_spins := f (ongoing_spins w);
     MAINTENANCE_MODE := MAINTENANCE_MODE w;
     users := users w; game_stats := game_stats w; whitelist := whitelist w;
     transactions := transactions w; ledger_calls := ledger_calls w;
     sent := sent w; tasks := tasks w |}.

Definition set_game_stats (f : option GameStats -> option GameStats) (w : World) : World :=
  {| ongoing_spins := ongoing_spins w;
     MAINTENANCE_MODE := MAINTENANCE_MODE w;
     users := users w; game_stats := f (game_stats w); whitelist := whitelist w;
     transactions := transactions w; ledger_calls := ledger_calls w;
     sent := sent w; tasks := tasks w |}.

Definition set_transactions (f : list TransactionRecord -> list TransactionRecord)
    (w : World) : World :=
  {| ongoing_spins := ongoing_spins w;
     MAINTENANCE_MODE := MAINTENANCE_MODE w;
     users := users w; game_stats := game_stats w; whitelist := whitelist w;
     transactions := f (transactions w); ledger_calls := ledger_calls w;
     sent := sent w; tasks := tasks w |}.

Definition set_ledger_calls (f : list LedgerCall -> list LedgerCall) (w : World) : World :=
  {| ongoing_spins := ongoing_spins w;
     MAINTENANCE_MODE := MAINTENANCE_MODE w;
     users := users w; game_stats := game_stats w; whitelist := whitelist w;
     transactions := transactions w; ledger_calls := f (ledger_calls w);
     sent := sent w; tasks := tasks w |}.

Definition set_sent (f : list Message -> list Message) (w : World) : World :=
  {| ongoing_spins := ongoing_spins w;
     MAINTENANCE_MODE := MAINTENANCE_MODE w;
     users := users w; game_stats := game_stats w; whitelist := whitelist w;
     transactions := transactions w; ledger_calls := ledger_calls w;
     sent := f (sent w); tasks := tasks w |}.

Definition set_tasks (f : list PlayBatch -> list PlayBatch) (w : World) : World :=
  {| ongoing_spins := ongoing_spins w;
     MAINTENANCE_MODE := MAINTENANCE_MODE w;
     users := users w; game_stats := game_stats w; whitelist := whitelist w;
     transactions := transactions w; ledger_calls := ledger_calls w;
     sent := sent w; tasks := f (tasks w) |}.

(** [await update.message.reply_text(...)] and [edit_text(...)] *)
Definition reply (m : Message) : M unit :=
  modify (set_sent (fun l => l ++ [m])%list).

(** [ongoing_spins[user_id] = flag] *)
Definition mark_ongoing (user_id : Z) (flag : bool) : M unit :=
  modify (set_ongoing_spins (fun m => <[user_id := flag]> m)).

(** [ongoing_spins.get(user_id)] used as a condition *)
Definition is_ongoing (m : gmap Z bool) (user_id : Z) : bool :=
  match m !! user_id with
  | Some flag => flag
  | None => false
  end.

(** [SELECT ... FROM users WHERE telegram_id = ?] with [fetchone()] *)
Definition fetch_user (user_id : Z) : M (option Account) :=
  w ← get_world; mret (users w !! user_id).

Section Handlers.
Context (cfg : Config) (env : Env).

(** *** Ledger client ([radix_integration.py]) *)

(** [get_radix_balance]: the simulated balance, or the gateway's answer;
    a failing request raises out of the function. *)
Definition get_radix_balance (address : string) : M Q :=
  w ← get_world;
  modify (set_ledger_calls (fun l => l ++ [BalanceQuery address])%list);;
  if SIMULATION_MODE cfg then mret 10000.0
  else
    match ledger_balance env (length (ledger_calls w)) address with
    | Some balance => mret balance
    | None => raise "Error getting entity details"
    end.

(** [submit_transaction_with_manifest]: never raises; every failure is
    folded into a dictionary with the key ["error"]. *)
Definition submit_transaction_with_manifest (manifest_string : Manifest)
    (sender_address private_key_str public_key_str : string) : M SubmitResult :=
  w ← get_world;
  modify (set_ledger_calls (fun l =>
    l ++ [SubmitTransaction manifest_string sender_address
            private_key_str public_key_str])%list);;
  if SIMULATION_MODE cfg then
    mret {| res_error := None;
            res_transaction_id := Some "sim_tx";
            res_status := Some "CommittedSuccess";
            res_error_message := None |}
  else if USING_REAL_TOOLKIT cfg then
    match gateway env (length (ledger_calls w)) with
    | GatewayError e =>
        mret {| res_error := Some e; res_transaction_id := None;
                res_status := None; res_error_message := None |}
    | GatewaySubmitted transaction_id polls =>
        let status_result :=
          check_transaction_status (SIMULATION_MODE cfg) polls in
        mret {| res_error := None;
                res_transaction_id := Some transaction_id;
                res_status := Some (default "Unknown" (sr_status status_result));
                res_error_message :=
                  Some (default "" (sr_error_message status_result)) |}
    end
  else
    mret {| res_error := Some "Configuration error";
            res_transaction_id := None;
            res_status := None; res_error_message := None |}.

(** *** Admission checks in front of every command *)

Definition check_maintenance_mode (update : Update) : M bool :=
  let user_id := effective_user_id update in
  if bool_decide (user_id = GAME_OWNER_TELEGRAM_ID cfg) then mret true
  else
    w ← get_world;
    if MAINTENANCE_MODE w then reply MsgMaintenance;; mret false
    else mret true.

Definition check_whitelist (user_id : Z) : M bool :=
  w ← get_world;
  mret (bool_decide (user_id ∈ whitelist w)
        || bool_decide (user_id = GAME_OWNER_TELEGRAM_ID cfg)).

Definition game_commands : list string :=
  ["/spin"; "/spin_7s"; "/spinner_balance"; "/spinner_max_bet";
   "/spinner_payouts"].

Definition check_chat_permissions (update : Update) : M bool :=
  let user_id := effective_user_id update in
  if bool_decide (user_id = GAME_OWNER_TELEGRAM_ID cfg) then mret true
  else if bool_decide (chat_type update = "private") then
    reply MsgWrongChat;; mret false
  else if bool_decide (chat_type update ∈ ["group"; "supergroup"])
          && chat_username_allowed update then
    if bool_decide (command update ∈ game_commands) then
      ok ← check_whitelist user_id;
      if (ok : bool) then mret true
      else reply MsgNotWhitelisted;; mret false
    else mret true
  else reply MsgWrongChat;; mret false.

(** *** Wager validator: [get_spin_amount] *)

Definition get_game_account_info : M GameStats :=
  w ← get_world;
  match game_stats w with
  | Some game_account => mret game_account
  | None =>
      raise "Game account not found in database. Please run init_db.py first."
  end.

Definition get_game_account_balance : M Q :=
  game_account ← get_game_account_info;
  get_radix_balance (game_address game_account).

Definition get_spin_amount (update : Update) (arg : Token)
    (is_seven_spin is_die : bool) : M (option Q) :=
  try_except
    (game_balance ← get_game_account_balance;
     let max_bet :=
       calculate_max_bet (MAX_WIN_PERCENTAGE cfg) game_balance
         is_seven_spin is_die in
     if tok_is_max arg then
       let user_id := effective_user_id update in
       user_data ← fetch_user user_id;
       match user_data with
       | None => reply MsgNoAccount;; mret None
       | Some account =>
           let address := radix_address account in
           user_balance ← get_radix_balance address;
           let user_max_bet := Qmax 0 (user_balance - 0.5) in
           let amount := Qmin max_bet user_max_bet in
           if Qltb amount MIN_SPIN_AMOUNT then
             reply (MsgBalanceBelowMinimum user_balance);; mret None
           else mret (Some amount)
       end
     else
       match tok_float arg with
       | Some amount =>
           if Qltb amount MIN_SPIN_AMOUNT then
             reply MsgMinimumSpin;; mret None
           else if Qgtb amount max_bet then
             reply (MsgExceedsMaximum amount max_bet);; mret (Some max_bet)
           else mret (Some amount)
       | None => reply MsgInvalidAmount;; mret None
       end)
    (fun _ => reply MsgAmountError;; mret None).

(** *** The play batch: [process_multiple_spins] and its two copies *)

(** [UPDATE game_stats SET total_winnings_paid = total_winnings_paid + ?
    WHERE id = 1] *)
Definition add_winnings_paid (x : Q) : M unit :=
  modify (set_game_stats (fmap (fun g =>
    {| game_address := game_address g;
       game_private_key := game_private_key g;
       game_public_key := game_public_key g;
       total_winnings_paid := total_winnings_paid g + x |}))).

(** [for _ in range(num_spins): dice_msg = await message.reply_dice(...)] *)
Fixpoint send_dice (values : list Z) : M unit :=
  match values with
  | [] => mret tt
  | v :: rest => reply (MsgDice v);; send_dice rest
  end.

Definition process_batch (rules : GameRules)
    (amount : Q) (user_id : Z) (num_spins : Z) : M unit :=
  try_finally
    (try_except
      (reply (MsgRolling num_spins amount);;
       let dice_values := map (dice env) (seq 0 (Z.to_nat num_spins)) in
       send_dice dice_values;;
       user_data ← fetch_user user_id;
       match user_data with
       | None => reply MsgAccountNotFound;; mark_ongoing user_id false
       | Some account =>
           let address := radix_address account in
           w ← get_world;
           match game_stats w with
           | None => reply MsgGameNotConfigured;; mark_ongoing user_id false
           | Some game_info =>
               let s := settle rules amount num_spins dice_values in
               failure ←
                 (if Qneqb (net_result s) 0 then
                    let manifest :=
                      settle_spin_manifest (game_address game_info) address
                        (net_result s) in
                    result ←
                      (if Qgtb (net_result s) 0 then
                         submit_transaction_with_manifest manifest
                           (game_address game_info)
                           (game_private_key game_info)
                           (game_public_key game_info)
                       else
                         submit_transaction_with_manifest manifest
                           address (private_key account) (public_key account));
                    mret (res_error result)
                  else mret None);
               match failure with
               | Some error =>
                   reply (MsgTransactionFailed error);;
                   mark_ongoing user_id false
               | None =>
                   (if Qgtb (net_result s) 0
                    then add_winnings_paid (net_result s - 0.5)
                    else mret tt);;
                   reply (MsgResults s (Qgtb (net_result s) 0))
               end
           end
       end)
      (fun _ => reply MsgProcessingError))
    (mark_ongoing user_id false).

Definition process_multiple_spins := process_batch spin_rules.
Definition process_multiple_spins_7s := process_batch spin_7s_rules.
Definition process_multiple_die_rolls := process_batch die_rules.

(** *** The [/spin] command *)

Definition spin (update : Update) (args : list Token) : M unit :=
  ok ← check_maintenance_mode update;
  if negb ok then mret tt else
  ok ← check_chat_permissions update;
  if negb ok then mret tt else
  let user_id := effective_user_id update in
  w ← get_world;
  if is_ongoing (ongoing_spins w) user_id then reply MsgSpinInProgress
  else
    match args with
    | [] => reply MsgSpinUsage
    | arg0 :: more =>
        let parsed :=
          match more with
          | [] => inl 1%Z
          | arg1 :: _ =>
              match tok_int arg1 with
              | Some n =>
                  if (n <? 1)%Z || (n >? 3)%Z then inr MsgSpinCountRange
                  else inl n
              | None => inr MsgSpinCountInvalid
              end
          end in
        match parsed with
        | inr m => reply m
        | inl num_spins =>
            mark_ongoing user_id true;;
            try_except
              (amount ← get_spin_amount update arg0 false false;
               match amount with
               | None => mark_ongoing user_id false
               | Some amount =>
                   user_data ← fetch_user user_id;
                   match user_data with
                   | None => reply MsgNoAccount;; mark_ongoing user_id false
                   | Some account =>
                       let address := radix_address account in
                       balance ← get_radix_balance address;
                       let total_needed :=
                         (amount * inject_Z num_spins) + 0.5 in
                       if Qltb balance total_needed then
                         reply (MsgInsufficientBalance num_spins
                                  total_needed balance);;
                         mark_ongoing user_id false
                       else
                         modify (set_tasks (fun l =>
                           l ++ [{| pb_amount := amount;
                                    pb_user_id := user_id;
                                    pb_num_spins := num_spins |}])%list)
                   end
               end)
              (fun e => mark_ongoing user_id false;; raise e)
        end
    end.

(** *** The withdraw command *)

Definition withdraw (update : Update) (args : list Token) : M unit :=
  ok ← check_maintenance_mode update;
  if negb ok then mret tt else
  ok ← check_chat_permissions update;
  if negb ok then mret tt else
  let user_id := effective_user_id update in
  w ← get_world;
  if is_ongoing (ongoing_spins w) user_id then reply MsgWithdrawInProgress
  else
    match args with
    | [] => reply MsgWithdrawUsage
    | arg0 :: more =>
        let to_address := tok_text arg0 in
        let parsed : Message + option Q :=
          match more with
          | [] => inr None
          | arg1 :: _ =>
              match tok_float arg1 with
              | Some amount =>
                  if Qle_bool amount 0 then inl MsgWithdrawPositive
                  else inr (Some amount)
              | None => inl MsgWithdrawInvalidAmount
              end
          end in
        match parsed with
        | inl m => reply m
        | inr amount =>
            user_data ← fetch_user user_id;
            match user_data with
            | None => reply MsgNoAccount
            | Some account =>
                let address := radix_address account in
                balance ← get_radix_balance address;
                let amount := default balance amount in
                if Qgtb amount balance then
                  reply (MsgWithdrawInsufficient balance)
                else if Qle_bool amount 1.01 then reply MsgWithdrawMinimum
                else
                  try_except
                    (let manifest :=
                       withdraw_tokens_manifest address to_address amount in
                     result ← submit_transaction_with_manifest manifest
                                address (private_key account)
                                (public_key account);
                     match res_error result with
                     | Some error =>
                         reply (MsgWithdrawTransactionFailed error)
                     | None =>
                         let transaction_status :=
                           default "" (res_status result) in
                         if SIMULATION_MODE cfg
                            || bool_decide (transaction_status = "CommittedSuccess")
                         then
                           let actual_amount := amount - 1.000001 in
                           modify (set_transactions (fun l =>
                             l ++ [{| tr_telegram_id := user_id;
                                      tr_action := "withdraw";
                                      tr_amount := actual_amount |}])%list);;
                           let transaction_id :=
                             default "unknown" (res_transaction_id result) in
                           reply (MsgWithdrawSuccess actual_amount to_address
                                    1.000001 transaction_id)
                         else
                           let error_msg :=
                             default "Unknown error" (res_error_message result) in
                           reply (MsgWithdrawNotCompleted error_msg)
                     end)
                    (fun _ => reply MsgWithdrawError)
            end
        end
    end.

End Handlers.

(** ** Notions used to state the properties *)

(** The payout multiplier of each variant, as the design documents it. *)
Definition variant_multiplier (v : Variant) : Q :=
  match v with
  | Standard => 12
  | SevensOnly => 48
  | Die => 5
  end.

(** The sum of [amount * m] over the winning outcomes of a batch. *)
Fixpoint gross_winnings (amount m : Q) (outcomes : list bool) : Q :=
  match outcomes with
  | [] => 0
  | won :: rest => (if won then amount * m else 0) + gross_winnings amount m rest
  end.

(** The house's cumulative winnings-paid counter. *)
Definition winnings_paid (w : World) : Q :=
  match game_stats w with
  | Some g => total_winnings_paid g
  | None => 0
  end.

(** The dice values a batch of [num_spins] plays receives. *)
Definition dice_of (env : Env) (num_spins : Z) : list Z :=
  map (dice env) (seq 0 (Z.to_nat num_spins)).

(** What the ledger answers to a balance query made after [n] ledger calls. *)
Definition balance_answer (cfg : Config) (env : Env) (n : nat)
    (address : string) : Result Q :=
  if SIMULATION_MODE cfg then Ok 10000.0
  else
    match ledger_balance env n address with
    | Some balance => Ok balance
    | None => Raise "Error getting entity details"
    end.

(** What a submission made after [n] ledger calls returns. *)
Definition submit_answer (cfg : Config) (env : Env) (n : nat) : SubmitResult :=
  if SIMULATION_MODE cfg then
    {| res_error := None; res_transaction_id := Some "sim_tx";
       res_status := Some "CommittedSuccess"; res_error_message := None |}
  else if USING_REAL_TOOLKIT cfg then
    match gateway env n with
    | GatewayError e =>
        {| res_error := Some e; res_transaction_id := None;
           res_status := None; res_error_message := None |}
    | GatewaySubmitted transaction_id polls =>
        let status_result := check_transaction_status (SIMULATION_MODE cfg) polls in
        {| res_error := None; res_transaction_id := Some transaction_id;
           res_status := Some (default "Unknown" (sr_status status_result));
           res_error_message := Some (default "" (sr_error_message status_result)) |}
    end
  else
    {| res_error := Some "Configuration error"; res_transaction_id := None;
       res_status := None; res_error_message := None |}.

(** The world after one more ledger call has been traced. *)
Definition traced (c : LedgerCall) (w : World) : World :=
  set_ledger_calls (fun l => l ++ [c])%list w.

(** Both admission checks in front of a command let the update through. *)
Definition admitted (cfg : Config) (update : Update) (w : World) : Prop :=
  check_maintenance_mode cfg update w = (Ok true, w)
  /\ check_chat_permissions cfg update w = (Ok true, w).

(** [w'] differs from [w] at most in the messages sent. *)
Definition only_replied (w w' : World) : Prop :=
  ongoing_spins w' = ongoing_spins w
  /\ MAINTENANCE_MODE w' = MAINTENANCE_MODE w
  /\ users w' = users w
  /\ game_stats w' = game_stats w
  /\ whitelist w' = whitelist w
  /\ transactions w' = transactions w
  /\ ledger_calls w' = ledger_calls w
  /\ tasks w' = tasks w.

(** [w'] differs from [w] at most in the messages sent and in the trace of
    ledger calls. *)
Definition only_observed (w w' : World) : Prop :=
  ongoing_spins w' = ongoing_spins w
  /\ MAINTENANCE_MODE w' = MAINTENANCE_MODE w
  /\ users w' = users w
  /\ game_stats w' = game_stats w
  /\ whitelist w' = whitelist w
  /\ transactions w' = transactions w
  /\ tasks w' = tasks w.

(** The calls that submit a transaction, among a trace of ledger calls. *)
Definition submissions (l : list LedgerCall) : list LedgerCall :=
  List.filter
    (fun c => match c with SubmitTransaction _ _ _ _ => true | _ => false end) l.

(** ** A concrete deployment, used to run the handlers *)

Module Example.

Definition cfg : Config :=
  {| MAX_WIN_PERCENTAGE := 5;
     GAME_OWNER_TELEGRAM_ID := 1;
     SIMULATION_MODE := false;
     USING_REAL_TOOLKIT := true |}.

Definition alice : Account :=
  {| radix_address := "account_alice";
     private_key := "private_alice";
     public_key := "public_alice" |}.

Definition house : GameStats :=
  {| game_address := "account_house";
     game_private_key := "private_house";
     game_public_key := "public_house";
     total_winnings_paid := 0 |}.

(** User 7 has an account, is whitelisted and has no play in flight. *)
Definition world : World :=
  {| ongoing_spins := ∅;
     MAINTENANCE_MODE := false;
     users := {[ 7%Z := alice ]};
     game_stats := Some house;
     whitelist := [7%Z];
     transactions := [];
     ledger_calls := [];
     sent := [];
     tasks := [] |}.

Definition update : Update :=
  {| effective_user_id := 7;
     chat_type := "supergroup";
     chat_username_allowed := true;
     command := "/spin" |}.

Definition withdraw_update : Update :=
  {| effective_user_id := 7;
     chat_type := "supergroup";
     chat_username_allowed := true;
     command := "/withdraw_spinner" |}.

Definition number (text : string) (q : Q) (n : option Z) : Token :=
  {| tok_text := text; tok_is_max := false; tok_float := Some q; tok_int := n |}.

Definition word (text : string) : Token :=
  {| tok_text := text; tok_is_max := false; tok_float := None; tok_int := None |}.

Definition max_token : Token :=
  {| tok_text := "max"; tok_is_max := true; tok_float := None; tok_int := None |}.

(** The status endpoint that answers "Pending" to every poll. *)
Definition always_pending : nat -> PollResponse :=
  fun _ => PollJson (Some "Pending") None.

(** The status endpoint that confirms at the third poll. *)
Definition committed_at_third : nat -> PollResponse :=
  fun i => if (i <? 2)%nat then PollJson (Some "Pending") None
           else PollJson (Some "CommittedSuccess") None.

(** The first dice of a batch wins the standard spin, the others lose. *)
Definition first_wins : nat -> Z :=
  fun i => match i with O => 1%Z | _ => 2%Z end.

(** No dice wins. *)
Definition none_wins : nat -> Z := fun _ => 2%Z.

(** Balances: the house holds 24000, everybody else 500. *)
Definition balances : nat -> string -> option Q :=
  fun _ a => if bool_decide (a = "account_house") then Some 24000 else Some 500.

Definition env_unknown : Env :=
  {| ledger_balance := balances;
     gateway := fun _ => GatewaySubmitted "txid_1" always_pending;
     dice := first_wins |}.

Definition env_win : Env :=
  {| ledger_balance := balances;
     gateway := fun _ => GatewaySubmitted "txid_1" committed_at_third;
     dice := first_wins |}.

Definition env_lose : Env :=
  {| ledger_balance := balances;
     gateway := fun _ => GatewaySubmitted "txid_1" committed_at_third;
     dice := none_wins |}.

End Example.

(** ** Further notions: polling *)

(** A poll answer that ends the polling: a JSON object whose status is one of
    the three final ones. *)
Definition poll_is_final (p : PollResponse) : bool :=
  match p with
  | PollRaises => false
  | PollJson st _ => is_final_status (default "Unknown" st)
  end.

(** The dictionary returned when the polling gives up. *)
Definition timed_out : StatusResult :=
  {| sr_status := Some "Unknown";
     sr_error_message := Some "Timed out waiting for transaction confirmation" |}.

(** The statuses a caller of [submit_transaction_with_manifest] can see. *)
Definition known_statuses : list string :=
  ["CommittedSuccess"; "CommittedFailure"; "Rejected"; "Unknown"].

(** ** Further notions: stakes and outcomes *)

(** [max_win] of [calculate_max_bet]: the share of the house balance that one
    play may win. *)
Definition max_win (pct game_balance : Q) : Q :=
  Qmax 0 (game_balance * (pct / 100)).

(** The dice values that win in each variant, as the results loops test
    them. *)
Definition winning_values (v : Variant) : list Z :=
  match v with
  | Standard => [1; 22; 43; 64]%Z
  | SevensOnly => [64]%Z
  | Die => [6]%Z
  end.

(** The net results of one play of [amount] on each face of a dice, added
    up: the player's expected net result times the number of faces. *)
Fixpoint total_net (v : Variant) (amount : Q) (faces : list Z) : Q :=
  match faces with
  | [] => 0
  | d :: rest =>
      net_result (settle (rules_of v) amount 1 [d]) + total_net v amount rest
  end.

(** The number of faces from which on the house has an edge:
    multiplier times number of winning values. *)
Definition break_even_faces (v : Variant) : nat :=
  match v with
  | Standard => 48
  | SevensOnly => 48
  | Die => 5
  end.

(** ** More of the ledger client ([radix_integration.py]) *)

From Stdlib Require Import Ascii.
From stdpp Require Import pretty.
Open Scope Q_scope.
Open Scope string_scope.

(** [send_winnings_manifest]: the game account pays the network fee and
    0.5 is deducted from the winnings. *)
Definition send_winnings_manifest (game_address player_address : string)
    (winnings_amount : Q) : Manifest :=
  let actual_payout := Qmax 0 (winnings_amount - 0.5) in
  [ LockFee game_address 2;
    Withdraw game_address actual_payout;
    TakeFromWorktop actual_payout "winnings";
    TryDepositOrAbort player_address "winnings" ].

(** [claim_winnings_manifest]: the same instructions, with the player's
    address as first parameter. *)
Definition claim_winnings_manifest (player_address game_address : string)
    (winnings_amount : Q) : Manifest :=
  let actual_payout := Qmax 0 (winnings_amount - 0.5) in
  [ LockFee game_address 2;
    Withdraw game_address actual_payout;
    TakeFromWorktop actual_payout "winnings";
    TryDepositOrAbort player_address "winnings" ].

Definition spin_manifest (player_address game_address : string)
    (spin_amount : Q) (num_spins : Z) : Manifest :=
  let total_amount := spin_amount * inject_Z num_spins in
  [ LockFee player_address 0.5;
    Withdraw player_address total_amount;
    TakeFromWorktop total_amount "payment";
    TryDepositOrAbort game_address "payment" ].

Definition buy_vouchers_manifest (player_address game_address : string)
    (voucher_cost : Q) (voucher_amount : Z) : Manifest :=
  let total_cost := voucher_cost * inject_Z voucher_amount in
  [ LockFee player_address 2;
    Withdraw player_address total_cost;
    TakeFromWorktop total_cost "payment";
    TryDepositOrAbort game_address "payment" ].

(** The amounts a manifest takes from the worktop; [None] stands for
    [TAKE_ALL_FROM_WORKTOP]. *)
Definition worktop_takes (m : Manifest) : list (option Q) :=
  flat_map (fun i => match i with
                     | TakeFromWorktop q _ => [Some q]
                     | TakeAllFromWorktop _ => [None]
                     | _ => []
                     end) m.

(** [verify_payment_received]: the game address and the expected amount are
    parameters of the Python function that its body does not read. *)
Definition verify_payment_received (SIMULATION_MODE : bool)
    (game_address : string) (expected_amount : Q)
    (polls : nat -> PollResponse) : bool :=
  if SIMULATION_MODE then true
  else
    let status_result := check_transaction_status SIMULATION_MODE polls in
    bool_decide (sr_status status_result = Some "CommittedSuccess").

Section Payouts.
Context (cfg : Config) (env : Env).

(** The loop [for attempt in range(max_retries)] of
    [send_winnings_with_retry]: [remaining] attempts are left, [attempt] is
    the loop variable.  The [except] branch of the loop body is not
    represented: neither [send_winnings_manifest] nor
    [submit_transaction_with_manifest] raises. *)
Fixpoint send_winnings_attempts (game_address game_private_key
    game_public_key player_address : string) (winnings_amount : Q)
    (max_retries : Z) (remaining : nat) (attempt : Z) : M SubmitResult :=
  match remaining with
  | O =>
      mret {| res_error :=
                Some ("Failed to send winnings after " +:+ pretty max_retries
                      +:+ " attempts");
              res_transaction_id := None; res_status := None;
              res_error_message := None |}
  | S remaining' =>
      let manifest :=
        send_winnings_manifest game_address player_address winnings_amount in
      result ← submit_transaction_with_manifest cfg env manifest
                 game_address game_private_key game_public_key;
      match res_error result with
      | Some _ =>
          if (attempt <? max_retries - 1)%Z then
            send_winnings_attempts game_address game_private_key
              game_public_key player_address winnings_amount max_retries
              remaining' (attempt + 1)%Z
          else mret result
      | None =>
          let transaction_status := default "" (res_status result) in
          if SIMULATION_MODE cfg
             || bool_decide (transaction_status = "CommittedSuccess")
          then mret result
          else if (attempt <? max_retries - 1)%Z then
            send_winnings_attempts game_address game_private_key
              game_public_key player_address winnings_amount max_retries
              remaining' (attempt + 1)%Z
          else
            mret {| res_error :=
                      Some ("Transaction failed after " +:+ pretty max_retries
                            +:+ " attempts with status: "
                            +:+ transaction_status);
                    res_transaction_id := None; res_status := None;
                    res_error_message := None |}
      end
  end.

Definition send_winnings_with_retry (game_address game_private_key
    game_public_key player_address : string) (winnings_amount : Q)
    (max_retries : Z) : M SubmitResult :=
  send_winnings_attempts game_address game_private_key game_public_key
    player_address winnings_amount max_retries (Z.to_nat max_retries) 0.

End Payouts.

(** A submission made after [n] ledger calls counts as sent for
    [send_winnings_with_retry]. *)
Definition attempt_succeeds (cfg : Config) (env : Env) (n : nat) : bool :=
  match res_error (submit_answer cfg env n) with
  | Some _ => false
  | None =>
      SIMULATION_MODE cfg
      || bool_decide (default "" (res_status (submit_answer cfg env n))
                      = "CommittedSuccess")
  end.

(** ** Escaping for the chat surface: [escape_markdown_v2]

    Characters are the bytes of the text; the special characters are ASCII
    and no byte of a longer UTF-8 character equals one of them. *)

Definition special_chars : list ascii :=
  ["_"; "*"; "["; "]"; "("; ")"; "~"; "`"; ">"; "#"; "+"; "-"; "="; "|";
   "{"; "}"; "."; "!"]%char.

Fixpoint escape_markdown_v2 (text : string) : string :=
  match text with
  | EmptyString => EmptyString
  | String char rest =>
      if bool_decide (char ∈ special_chars)
      then String "\" (String char (escape_markdown_v2 rest))
      else String char (escape_markdown_v2 rest)
  end.

(** Reading an escaped text back: a backslash in front of a special
    character is dropped. *)
Fixpoint unescape_markdown_v2 (text : string) : string :=
  match text with
  | EmptyString => EmptyString
  | String c rest =>
      match rest with
      | String d rest' =>
          if bool_decide (c = "\"%char) && bool_decide (d ∈ special_chars)
          then String d (unescape_markdown_v2 rest')
          else String c (unescape_markdown_v2 rest)
      | EmptyString => String c EmptyString
      end
  end.

(** A manifest that is one transfer of [amount] from [payer] to [payee]:
    the payer locks the fee, the amount is withdrawn from the payer, the same
    amount (or all of it) is taken from the worktop and deposited to the
    payee. *)
Definition single_transfer (m : Manifest) (payer payee : string)
    (amount : Q) : Prop :=
  fee_payers m = [payer]
  /\ withdrawals m = [(payer, amount)]
  /\ (worktop_takes m = [Some amount] \/ worktop_takes m = [None])
  /\ deposits m = [payee].

(** The world after the same ledger call has been traced [k] times. *)
Definition traced_times (c : LedgerCall) (k : nat) (w : World) : World :=
  set_ledger_calls (fun l => l ++ repeat c k)%list w.

(** ** Further commands of the bot

    The commands below send messages of further kinds.  They run over a
    [Bot]: the world, the log of these messages and the batches they spawn
    together with the variant whose routine processes them. *)

Inductive Notice :=
  | NoticeAdminOnly
  | NoticeMaintenance (enabled : bool)
  | NoticeWhitelistAddUsage
  | NoticeWhitelistRemoveUsage
  | NoticeInvalidUserId
  | NoticeAlreadyWhitelisted (target_user_id : Z)
  | NoticeWhitelisted (target_user_id : Z)
  | NoticeNotInWhitelist (target_user_id : Z)
  | NoticeUnwhitelisted (target_user_id : Z)
  | NoticeMaxBet (game_balance max_win_percentage
                  regular_max_bet regular_max_win
                  sevens_max_bet sevens_max_win
                  die_max_bet die_max_win : Q)
  | NoticeMaxBetError
  | NoticeRefundInvalid
  | NoticeRefundNotOriginal
  | NoticeRefundNotEligible
  | NoticeRefundFailed (error : string)
  | NoticeRefundProcessed (refund_amount : Q)
  | NoticeRefundKeyboard (amount : Q) (num_spins : Z)
  | NoticeRefundError
  | NoticeSpin7sUsage
  | NoticeDieInProgress
  | NoticeDieUsage
  | NoticeDieCountRange
  | NoticeDieCountInvalid
  | NoticeDieInsufficientBalance (num_rolls : Z) (total_needed balance : Q)
  | NoticeAgainInvalid (v : Variant)
  | NoticeAgainNotOriginal (v : Variant)
  | NoticeAgainInProgress (v : Variant)
  | NoticeAgainStarting (v : Variant) (amount : Q) (num_spins : Z)
  | NoticeAgainError (v : Variant)
  | NoticeBackupDocument
  | NoticeAccountExists (address : string)
  | NoticeAccountCreated (address : string).

Record Bot := {
  bot_world : World;
  bot_notices : list Notice;
  bot_spawned : list (Variant * PlayBatch)
}.

Definition B (A : Type) : Type := Bot -> Result A * Bot.

#[global] Instance B_ret : MRet B := fun A a b => (Ok a, b).
#[global] Instance B_bind : MBind B := fun A C f m b =>
  match m b with
  | (Ok a, b') => f a b'
  | (Raise e, b') => (Raise e, b')
  end.

(** A handler of the world, run inside the bot. *)
Definition lift {A : Type} (m : M A) : B A :=
  fun b =>
    let '(r, w') := m (bot_world b) in
    (r, {| bot_world := w'; bot_notices := bot_notices b;
           bot_spawned := bot_spawned b |}).

Definition notify (n : Notice) : B unit :=
  fun b =>
    (Ok tt, {| bot_world := bot_world b;
               bot_notices := (bot_notices b ++ [n])%list;
               bot_spawned := bot_spawned b |}).

(** [asyncio.create_task] of the routine of variant [v] *)
Definition spawn (v : Variant) (batch : PlayBatch) : B unit :=
  fun b =>
    (Ok tt, {| bot_world := bot_world b;
               bot_notices := bot_notices b;
               bot_spawned := (bot_spawned b ++ [(v, batch)])%list |}).

Definition raise_b {A : Type} (e : string) : B A := fun b => (Raise e, b).

(** [try: body except Exception as e: handler(e)] *)
Definition try_except_b {A : Type} (body : B A) (handler : string -> B A) : B A :=
  fun b =>
    match body b with
    | (Ok a, b') => (Ok a, b')
    | (Raise e, b') => handler e b'
    end.

(** [try: body finally: final] *)
Definition try_finally_b {A : Type} (body : B A) (final : B unit) : B A :=
  fun b =>
    let '(r, b') := body b in
    match final b' with
    | (Ok _, b'') => (r, b'')
    | (Raise e, b'') => (Raise e, b'')
    end.

Definition set_maintenance_mode (f : bool -> bool) (w : World) : World :=
  {| ongoing_spins := ongoing_spins w;
     MAINTENANCE_MODE := f (MAINTENANCE_MODE w);
     users := users w; game_stats := game_stats w; whitelist := whitelist w;
     transactions := transactions w; ledger_calls := ledger_calls w;
     sent := sent w; tasks := tasks w |}.

Definition set_whitelist (f : list Z -> list Z) (w : World) : World :=
  {| ongoing_spins := ongoing_spins w;
     MAINTENANCE_MODE := MAINTENANCE_MODE w;
     users := users w; game_stats := game_stats w; whitelist := f (whitelist w);
     transactions := transactions w; ledger_calls := ledger_calls w;
     sent := sent w; tasks := tasks w |}.

Definition set_users (f : gmap Z Account -> gmap Z Account) (w : World) : World :=
  {| ongoing_spins := ongoing_spins w;
     MAINTENANCE_MODE := MAINTENANCE_MODE w;
     users := f (users w); game_stats := game_stats w; whitelist := whitelist w;
     transactions := transactions w; ledger_calls := ledger_calls w;
     sent := sent w; tasks := tasks w |}.

(** [load_whitelist]: the rows of the [whitelist] table. *)
Definition load_whitelist : M (list Z) :=
  w ← get_world; mret (whitelist w).

(** [save_whitelist]: [user_id] is the primary key of the table, so that an
    [INSERT] of a user who is in the table fails; the failure is logged and
    the table is left as it was.  [DELETE] removes the user's row. *)
Definition save_whitelist (user_id : Z) (add : bool) : M unit :=
  if add then
    modify (set_whitelist (fun l =>
      if bool_decide (user_id ∈ l) then l else (l ++ [user_id])%list))
  else
    modify (set_whitelist (fun l =>
      List.filter (fun x => negb (bool_decide (x = user_id))) l)).

Section Commands.
Context (cfg : Config) (env : Env).

(** *** [toggle_migrate] *)

Definition toggle_migrate (update : Update) : B unit :=
  let user_id := effective_user_id update in
  if negb (bool_decide (user_id = GAME_OWNER_TELEGRAM_ID cfg)) then
    notify NoticeAdminOnly
  else
    lift (modify (set_maintenance_mode negb));;
    w ← lift get_world;
    notify (NoticeMaintenance (MAINTENANCE_MODE w)).

(** *** [add_to_whitelist] and [remove_from_whitelist] *)



(** *** [max_bet] *)

Definition max_bet (update : Update) : B unit :=
  ok ← lift (check_maintenance_mode cfg update);
  if negb ok then mret tt else
  ok ← lift (check_chat_permissions cfg update);
  if negb ok then mret tt else
  try_except_b
    (game_balance ← lift (get_game_account_balance cfg env);
     let max_win_percentage := MAX_WIN_PERCENTAGE cfg in
     let regular_max_multiplier := 12.0 in
     let regular_max_win := Qmax 0 (game_balance * (max_win_percentage / 100)) in
     let regular_max_bet :=
       Qmin MAX_SPIN_AMOUNT (regular_max_win / regular_max_multiplier) in
     let sevens_max_multiplier := 48.0 in
     let sevens_max_win := Qmax 0 (game_balance * (max_win_percentage / 100)) in
     let sevens_max_bet :=
       Qmin (MAX_SPIN_AMOUNT / 4) (sevens_max_win / sevens_max_multiplier) in
     let die_max_multiplier := 5.0 in
     let die_max_win := Qmax 0 (game_balance * (max_win_percentage / 100)) in
     let die_max_bet := Qmin MAX_SPIN_AMOUNT (die_max_win / die_max_multiplier) in
     notify (NoticeMaxBet game_balance max_win_percentage
               regular_max_bet regular_max_win
               sevens_max_bet sevens_max_win
               die_max_bet die_max_win))
    (fun _ => notify NoticeMaxBetError).

End Commands.

(** A callback query of an inline button, as far as the handlers read it. *)
Record CallbackQuery := {
  from_user_id : Z;
  (* [query.data.split('_')] *)
  data_parts : list Token;
  (* [query.message.reply_to_message.from_user.id]; [None] when the message
     replied to is gone and the attribute access raises *)
  reply_to_user_id : option Z
}.

(** The two parts of the callback data that hold the amount and the number
    of plays: "spin_again_a_n" and "die_again_a_n" have four parts,
    "spin_7s_again_a_n" has five. *)
Definition again_parts (v : Variant) (parts : list Token)
    : option (Token * Token) :=
  match v with
  | SevensOnly =>
      match parts with
      | [_; _; _; a; n] => Some (a, n)
      | _ => None
      end
  | _ =>
      match parts with
      | [_; _; a; n] => Some (a, n)
      | _ => None
      end
  end.

Section Callbacks.
Context (cfg : Config) (env : Env).

(** *** [handle_refund] *)

Definition handle_refund (query : CallbackQuery) : B unit :=
  try_except_b
    (match data_parts query with
     | [_; part1; part2; part3] =>
         match tok_float part1 with
         | None => raise_b "ValueError"
         | Some refund_amount =>
         match tok_int part2 with
         | None => raise_b "ValueError"
         | Some num_spins =>
         match tok_int part3 with
         | None => raise_b "ValueError"
         | Some original_spinner_id =>
             let requesting_user_id := from_user_id query in
             if negb (bool_decide (requesting_user_id = original_spinner_id))
             then notify NoticeRefundNotOriginal
             else
               ok ← lift (check_whitelist cfg requesting_user_id);
               if negb ok then notify NoticeRefundNotEligible
               else
                 user_data ← lift (fetch_user requesting_user_id);
                 match user_data with
                 | None => lift (reply MsgAccountNotFound)
                 | Some account =>
                     let address := radix_address account in
                     w ← lift get_world;
                     match game_stats w with
                     | None => lift (reply MsgGameNotConfigured)
                     | Some game_info =>
                         let manifest :=
                           settle_spin_manifest (game_address game_info)
                             address refund_amount in
                         result ← lift (submit_transaction_with_manifest cfg env
                                          manifest (game_address game_info)
                                          (game_private_key game_info)
                                          (game_public_key game_info));
                         match res_error result with
                         | Some error => notify (NoticeRefundFailed error)
                         | None =>
                             lift (save_whitelist requesting_user_id false);;
                             lift (add_winnings_paid (refund_amount - 0.5));;
                             notify (NoticeRefundProcessed refund_amount);;
                             (* [refund_amount/num_spins] *)
                             if bool_decide (num_spins = 0%Z)
                             then raise_b "ZeroDivisionError"
                             else notify (NoticeRefundKeyboard
                                            (refund_amount / inject_Z num_spins)
                                            num_spins)
                         end
                     end
                 end
         end end end
     | _ => notify NoticeRefundInvalid
     end)
    (fun _ => notify NoticeRefundError).

(** *** [spin_7s] and [die] *)


Definition die (update : Update) (args : list Token) : B unit :=
  ok ← lift (check_maintenance_mode cfg update);
  if negb ok then mret tt else
  ok ← lift (check_chat_permissions cfg update);
  if negb ok then mret tt else
  let user_id := effective_user_id update in
  w ← lift get_world;
  if is_ongoing (ongoing_spins w) user_id then notify NoticeDieInProgress
  else
    match args with
    | [] => notify NoticeDieUsage
    | arg0 :: more =>
        let parsed :=
          match more with
          | [] => inl 1%Z
          | arg1 :: _ =>
              match tok_int arg1 with
              | Some n =>
                  if (n <? 1)%Z || (n >? 3)%Z then inr NoticeDieCountRange
                  else inl n
              | None => inr NoticeDieCountInvalid
              end
          end in
        match parsed with
        | inr m => notify m
        | inl num_rolls =>
            amount ← lift (get_spin_amount cfg env update arg0 false true);
            match amount with
            | None => mret tt
            | Some amount =>
                user_data ← lift (fetch_user user_id);
                match user_data with
                | None => lift (reply MsgNoAccount)
                | Some account =>
                    let address := radix_address account in
                    balance ← lift (get_radix_balance cfg env address);
                    let total_needed := (amount * inject_Z num_rolls) + 0.5 in
                    if Qltb balance total_needed then
                      notify (NoticeDieInsufficientBalance num_rolls
                                total_needed balance)
                    else
                      lift (mark_ongoing user_id true);;
                      spawn Die {| pb_amount := amount;
                                   pb_user_id := user_id;
                                   pb_num_spins := num_rolls |}
                end
            end
        end
    end.

(** *** [handle_spin_again], [handle_spin_7s_again], [handle_die_again]

    Three copies of one routine that differ in the shape of the callback
    data, in the texts and in the batch routine they await. *)

Definition handle_again (v : Variant) (query : CallbackQuery) : B unit :=
  try_except_b
    (match again_parts v (data_parts query) with
     | None => notify (NoticeAgainInvalid v)
     | Some (part_amount, part_count) =>
         match tok_float part_amount with
         | None => raise_b "ValueError"
         | Some amount =>
         match tok_int part_count with
         | None => raise_b "ValueError"
         | Some num_spins =>
         match reply_to_user_id query with
         | None => raise_b "AttributeError"
         | Some original_spinner_id =>
             if negb (bool_decide (from_user_id query = original_spinner_id))
             then notify (NoticeAgainNotOriginal v)
             else
               w ← lift get_world;
               if is_ongoing (ongoing_spins w) (from_user_id query)
               then notify (NoticeAgainInProgress v)
               else
                 lift (mark_ongoing (from_user_id query) true);;
                 try_finally_b
                   (notify (NoticeAgainStarting v amount num_spins);;
                    let user_id := from_user_id query in
                    user_data ← lift (fetch_user user_id);
                    match user_data with
                    | None => lift (reply MsgAccountNotFound)
                    | Some account =>
                        let address := radix_address account in
                        balance ← lift (get_radix_balance cfg env address);
                        let total_needed :=
                          (amount * inject_Z num_spins) + 0.5 in
                        if Qltb balance total_needed then
                          match v with
                          | Die =>
                              notify (NoticeDieInsufficientBalance num_spins
                                        total_needed balance)
                          | _ =>
                              lift (reply (MsgInsufficientBalance num_spins
                                             total_needed balance))
                          end
                        else
                          lift (process_batch cfg env (rules_of v) amount
                                  user_id num_spins)
                    end)
                   (lift (mark_ongoing (from_user_id query) false))
         end end end
     end)
    (fun _ =>
       notify (NoticeAgainError v);;
       lift (mark_ongoing (from_user_id query) false)).

Definition handle_spin_again := handle_again Standard.
Definition handle_spin_7s_again := handle_again SevensOnly.
Definition handle_die_again := handle_again Die.

(** *** [create_account]

    [fresh] is the account that [create_radix_account] generates.  The
    [users] table keeps its addresses unique: the [INSERT] of an address that
    is in the table raises and nothing is committed.  The two copies of the
    database that go to the owner are logged as sent, although a failure to
    send is tolerated. *)

Definition create_account (update : Update) (fresh : Account) : B unit :=
  ok ← lift (check_maintenance_mode cfg update);
  if negb ok then mret tt else
  ok ← lift (check_chat_permissions cfg update);
  if negb ok then mret tt else
  let user_id := effective_user_id update in
  notify NoticeBackupDocument;;
  existing_account ← lift (fetch_user user_id);
  match existing_account with
  | Some account => notify (NoticeAccountExists (radix_address account))
  | None =>
      w ← lift get_world;
      if bool_decide (map_Forall
                        (fun _ a => radix_address a <> radix_address fresh)
                        (users w))
      then
        lift (modify (set_users (fun u => <[user_id := fresh]> u)));;
        lift (modify (set_transactions (fun l =>
          l ++ [{| tr_telegram_id := user_id;
                   tr_action := "deposit";
                   tr_amount := 10000.0 |}])%list));;
        notify NoticeBackupDocument;;
        notify (NoticeAccountCreated (radix_address fresh))
      else raise_b "IntegrityError"
  end.

End Callbacks.

(** No two rows of the [users] table hold the same address. *)
Definition addresses_unique (u : gmap Z Account) : Prop :=
  forall (i j : Z) (a b : Account),
    u !! i = Some a -> u !! j = Some b ->
    radix_address a = radix_address b -> i = j.

Ltac brun :=
  cbv [mbind mret B_bind B_ret lift notify spawn raise_b try_except_b
       try_finally_b M_bind M_ret reply modify mark_ongoing get_world
       fetch_user try_except try_finally raise add_winnings_paid
       load_whitelist save_whitelist];
  cbv beta iota.

Ltac bfields :=
  cbn [bot_world bot_notices bot_spawned negb
       ongoing_spins MAINTENANCE_MODE users game_stats whitelist transactions
       ledger_calls sent tasks set_sent set_ongoing_spins set_game_stats
       set_transactions set_ledger_calls set_tasks set_maintenance_mode
       set_whitelist set_users traced fst snd winnings_paid].


(** ** Tactics that run a handler symbolically *)

Ltac mrun :=
  cbv [mbind mret M_bind M_ret reply modify mark_ongoing get_world fetch_user
       try_except try_finally raise add_winnings_paid];
  cbv beta iota.

Ltac fields :=
  cbn [ongoing_spins MAINTENANCE_MODE users game_stats whitelist transactions
       ledger_calls sent tasks set_sent set_ongoing_spins set_game_stats
       set_transactions set_ledger_calls set_tasks traced fst snd
       winnings_paid].

Ltac fields_in H :=
  cbn [ongoing_spins MAINTENANCE_MODE users game_stats whitelist transactions
       ledger_calls sent tasks set_sent set_ongoing_spins set_game_stats
       set_transactions set_ledger_calls set_tasks traced fst snd
       winnings_paid] in H.

(** ** Facts about the comparisons *)

Lemma Qltb_true (x y : Q) : Qltb x y = true <-> x < y.
Proof.
  unfold Qltb. rewrite negb_true_iff. split.
  - intros H. apply Qnot_le_lt. intros Hle.
    apply Qle_bool_iff in Hle. congruence.
  - intros H. destruct (Qle_bool y x) eqn:E; [|reflexivity].
    apply Qle_bool_iff in E. exfalso. eapply Qlt_not_le; eauto.
Qed.

Lemma Qltb_false (x y : Q) : Qltb x y = false <-> y <= x.
Proof.
  unfold Qltb. rewrite negb_false_iff. apply Qle_bool_iff.
Qed.

Lemma Qgtb_true (x y : Q) : Qgtb x y = true <-> y < x.
Proof. apply Qltb_true. Qed.

Lemma Qgtb_false (x y : Q) : Qgtb x y = false <-> x <= y.
Proof. apply Qltb_false. Qed.

Lemma Qneqb_false (x y : Q) : Qneqb x y = false <-> x == y.
Proof. unfold Qneqb. rewrite negb_false_iff. apply Qeq_bool_iff. Qed.

Lemma Qneqb_true (x y : Q) : Qneqb x y = true <-> ~ x == y.
Proof.
  unfold Qneqb. rewrite negb_true_iff. split.
  - apply Qeq_bool_neq.
  - intros H. destruct (Qeq_bool x y) eqn:E; [|reflexivity].
    apply Qeq_bool_iff in E. contradiction.
Qed.

Lemma Qle_bool_false (x y : Q) : Qle_bool x y = false <-> y < x.
Proof.
  split.
  - intros H. apply Qnot_le_lt. intros Hle. apply Qle_bool_iff in Hle. congruence.
  - intros H. destruct (Qle_bool x y) eqn:E; [|reflexivity].
    apply Qle_bool_iff in E. exfalso. eapply Qlt_not_le; eauto.
Qed.

(** ** The wager validator *)

Lemma Qdiv_le_compat (x y m : Q) : 0 < m -> x <= y -> x / m <= y / m.
Proof.
  intros Hm Hxy. unfold Qdiv. apply Qmult_le_compat_r; [exact Hxy|].
  apply Qlt_le_weak, Qinv_lt_0_compat, Hm.
Qed.

Lemma max_win_monotone (pct h1 h2 : Q) :
  0 <= pct \/ 0 <= h1 -> h1 <= h2 ->
  Qmax 0 (h1 * (pct / 100)) <= Qmax 0 (h2 * (pct / 100)).
Proof.
  intros Hdom Hle.
  assert (Hpct : pct / 100 == pct * (1 # 100)) by reflexivity.
  destruct (Qlt_le_dec pct 0) as [Hneg | Hpos].
  - destruct Hdom as [Hp | Hh]; [lra|].
    assert (H1 : h1 * (pct / 100) <= 0) by (rewrite Hpct; nra).
    assert (H2 : h2 * (pct / 100) <= 0) by (rewrite Hpct; nra).
    destruct (Q.max_spec 0 (h1 * (pct / 100))) as [[? E1] | [? E1]];
      destruct (Q.max_spec 0 (h2 * (pct / 100))) as [[? E2] | [? E2]];
      rewrite E1, E2; lra.
  - apply Q.max_le_compat_l. rewrite Hpct. nra.
Qed.

Lemma calculate_max_bet_flags_monotone (pct h1 h2 : Q) (seven die : bool) :
  0 <= pct \/ 0 <= h1 -> h1 <= h2 ->
  calculate_max_bet pct h1 seven die <= calculate_max_bet pct h2 seven die.
Proof.
  intros Hdom Hle. pose proof (max_win_monotone pct h1 h2 Hdom Hle) as Hw.
  unfold calculate_max_bet.
  destruct seven; [apply Q.min_le_compat_r|]; try destruct die;
    apply Q.min_le_compat_l; apply Qdiv_le_compat; try exact Hw; reflexivity.
Qed.

Lemma calculate_max_bet_flags_ceiling (pct h : Q) (seven die : bool) :
  calculate_max_bet pct h seven die <= MAX_SPIN_AMOUNT.
Proof.
  unfold calculate_max_bet. destruct seven.
  - eapply Qle_trans; [apply Q.le_min_l|apply Q.le_min_l].
  - apply Q.le_min_l.
Qed.

(** [C5] For every house balance [h] the maximum bet is
    [min(ceiling, max(0, h * percent / 100) / multiplier)], with multiplier 12
    for the standard spin, 5 for the die and 48 for the sevens-only spin,
    whose result is capped at a quarter of the ceiling besides; with balance
    1000 and 5 percent the maximal win is 50 and the standard maximum bet is
    [50 / 12]. *)
Theorem calculate_max_bet_formula (pct h : Q) :
  let max_win := Qmax 0 (h * pct / 100) in
  calculate_max_bet pct h (is_seven_spin_of Standard) (is_die_of Standard)
    == Qmin MAX_SPIN_AMOUNT (max_win / 12)
  /\ calculate_max_bet pct h (is_seven_spin_of Die) (is_die_of Die)
    == Qmin MAX_SPIN_AMOUNT (max_win / 5)
  /\ calculate_max_bet pct h (is_seven_spin_of SevensOnly) (is_die_of SevensOnly)
    == Qmin (Qmin MAX_SPIN_AMOUNT (max_win / 48)) (MAX_SPIN_AMOUNT / 4)
  /\ calculate_max_bet pct h (is_seven_spin_of SevensOnly) (is_die_of SevensOnly)
    <= MAX_SPIN_AMOUNT / 4
  /\ MAX_SPIN_AMOUNT == 1000
  /\ Qmax 0 (1000 * 5 / 100) == 50
  /\ calculate_max_bet 5 1000 (is_seven_spin_of Standard) (is_die_of Standard)
    == Qmin 1000 (50 / 12)
  /\ Qmin 1000 (50 / 12) == 25 # 6.
Proof.
  intros max_win.
  assert (Hw : Qmax 0 (h * (pct / 100)) == max_win).
  { unfold max_win. apply Q.max_compat; [reflexivity|].
    unfold Qdiv. ring. }
  assert (Hdiv : forall m, Qmax 0 (h * (pct / 100)) / m == max_win / m).
  { intros m. unfold Qdiv. rewrite Hw. reflexivity. }
  assert (Hm : forall m m', m == m' ->
            Qmin MAX_SPIN_AMOUNT (Qmax 0 (h * (pct / 100)) / m)
            == Qmin MAX_SPIN_AMOUNT (max_win / m')).
  { intros m m' E. apply Q.min_compat; [reflexivity|].
    rewrite Hdiv. unfold Qdiv. rewrite E. reflexivity. }
  unfold calculate_max_bet; simpl.
  split; [apply Hm; vm_compute; reflexivity|].
  split; [apply Hm; vm_compute; reflexivity|].
  split; [apply Q.min_compat; [apply Hm; vm_compute|]; reflexivity|].
  split; [apply Q.le_min_r|].
  repeat split; vm_compute; reflexivity.
Qed.

(** [C8] For every variant the maximum bet does not decrease when the house
    balance grows, and it never exceeds the global ceiling.  Balances are
    amounts read from the ledger and the percentage is a share: the statement
    asks that one of the two be non-negative. *)
Theorem calculate_max_bet_monotone (pct h1 h2 : Q) (v : Variant) :
  0 <= pct \/ 0 <= h1 ->
  h1 <= h2 ->
  calculate_max_bet pct h1 (is_seven_spin_of v) (is_die_of v)
    <= calculate_max_bet pct h2 (is_seven_spin_of v) (is_die_of v)
  /\ calculate_max_bet pct h1 (is_seven_spin_of v) (is_die_of v) <= MAX_SPIN_AMOUNT
  /\ calculate_max_bet pct h2 (is_seven_spin_of v) (is_die_of v) <= MAX_SPIN_AMOUNT.
Proof.
  intros Hdom Hle. split; [|split].
  - apply calculate_max_bet_flags_monotone; assumption.
  - apply calculate_max_bet_flags_ceiling.
  - apply calculate_max_bet_flags_ceiling.
Qed.

Lemma calculate_max_bet_monotone_witness :
  calculate_max_bet 5 1000 false false <= calculate_max_bet 5 2000 false false
  /\ calculate_max_bet 5 1000 false false <= MAX_SPIN_AMOUNT
  /\ calculate_max_bet 5 2000 false false <= MAX_SPIN_AMOUNT.
Proof.
  apply (calculate_max_bet_monotone 5 1000 2000 Standard).
  - left. vm_compute. discriminate.
  - vm_compute. discriminate.
Defined.

(** ** The settlement calculator *)

Lemma gross_winnings_compat (a m m' : Q) (outcomes : list bool) :
  m == m' -> gross_winnings a m outcomes == gross_winnings a m' outcomes.
Proof.
  intros E. induction outcomes as [|won rest IH]; simpl; [reflexivity|].
  rewrite IH. destruct won; [rewrite E|]; reflexivity.
Qed.

Lemma process_results_winnings (r : GameRules) (a : Q) (dice_values : list Z) :
  forall (i : Z) (acc : list Z * Q),
    snd (process_results r a i dice_values acc)
    == snd acc + gross_winnings a (multiplier r) (map (is_win r) dice_values).
Proof.
  induction dice_values as [|d rest IH]; intros i acc; simpl.
  - ring.
  - rewrite IH. destruct (is_win r d); simpl; ring.
Qed.

Lemma variant_multiplier_rules (v : Variant) :
  multiplier (rules_of v) == variant_multiplier v.
Proof. destruct v; vm_compute; reflexivity. Qed.

(** [C3] The settlement of a batch: the gross winnings are the sum of
    [amount * multiplier] over the winning outcomes, the total cost is
    [amount * N] and the net result is their difference; three standard
    plays of 10 with outcomes win, lose, lose give 120, 30 and 90. *)
Theorem settle_computation (v : Variant) (amount : Q) (num_spins : Z)
    (dice_values : list Z) :
  let s := settle (rules_of v) amount num_spins dice_values in
  let outcomes := map (is_win (rules_of v)) dice_values in
  (total_winnings s == gross_winnings amount (variant_multiplier v) outcomes
   /\ total_cost s == amount * inject_Z num_spins
   /\ net_result s == total_winnings s - total_cost s
   /\ net_result s
      == gross_winnings amount (variant_multiplier v) outcomes
         - amount * inject_Z num_spins)
  /\ (let b := settle (rules_of Standard) 10 3 [1; 2; 3]%Z in
      map (is_win (rules_of Standard)) [1; 2; 3]%Z = [true; false; false]
      /\ total_winnings b == 120 /\ total_cost b == 30 /\ net_result b == 90).
Proof.
  intros s outcomes. split.
  - assert (Hw : total_winnings s
                 == gross_winnings amount (variant_multiplier v) outcomes).
    { unfold s, settle.
      pose proof (process_results_winnings (rules_of v) amount dice_values
                    0%Z ([], 0)) as H.
      destruct (process_results (rules_of v) amount 0 dice_values ([], 0))
        as [winning winnings].
      simpl in *. rewrite H.
      rewrite (gross_winnings_compat amount _ _ _ (variant_multiplier_rules v)).
      fold outcomes. ring. }
    assert (Hc : total_cost s = amount * inject_Z num_spins).
    { unfold s, settle.
      destruct (process_results (rules_of v) amount 0 dice_values ([], 0)).
      reflexivity. }
    assert (Hn : net_result s = total_winnings s - total_cost s).
    { unfold s, settle.
      destruct (process_results (rules_of v) amount 0 dice_values ([], 0)).
      reflexivity. }
    repeat split.
    + exact Hw.
    + rewrite Hc. reflexivity.
    + rewrite Hn. reflexivity.
    + rewrite Hn, Hc, Hw. reflexivity.
  - vm_compute. repeat split.
Qed.

(** ** Running the handlers *)

Lemma send_dice_run (values : list Z) (w : World) :
  send_dice values w
  = (Ok tt, set_sent (fun s => s ++ map MsgDice values)%list w).
Proof.
  revert w. induction values as [|v rest IH]; intros w.
  - destruct w. unfold set_sent. simpl. rewrite app_nil_r. reflexivity.
  - simpl. mrun. rewrite IH. unfold set_sent. simpl.
    rewrite <- app_assoc. reflexivity.
Qed.

Lemma submit_transaction_run cfg env m a k p (w : World) :
  submit_transaction_with_manifest cfg env m a k p w
  = (Ok (submit_answer cfg env (length (ledger_calls w))),
     traced (SubmitTransaction m a k p) w).
Proof.
  unfold submit_transaction_with_manifest, submit_answer. mrun.
  destruct (SIMULATION_MODE cfg); [reflexivity|].
  destruct (USING_REAL_TOOLKIT cfg); [|reflexivity].
  destruct (gateway env (length (ledger_calls w))); reflexivity.
Qed.

Lemma get_radix_balance_run cfg env a (w : World) :
  get_radix_balance cfg env a w
  = (balance_answer cfg env (length (ledger_calls w)) a,
     traced (BalanceQuery a) w).
Proof.
  unfold get_radix_balance, balance_answer. mrun.
  destruct (SIMULATION_MODE cfg); [reflexivity|].
  destruct (ledger_balance env (length (ledger_calls w)) a); reflexivity.
Qed.

(** A submission that reports a status carries no ["error"] key. *)
Lemma submit_answer_status_no_error cfg env n st :
  res_status (submit_answer cfg env n) = Some st ->
  res_error (submit_answer cfg env n) = None.
Proof.
  unfold submit_answer.
  destruct (SIMULATION_MODE cfg); [reflexivity|].
  destruct (USING_REAL_TOOLKIT cfg); [|discriminate].
  destruct (gateway env n); [discriminate|reflexivity].
Qed.

(** Polling that never sees a final status gives up with ["Unknown"]. *)
Lemma poll_status_never_final (polls : nat -> PollResponse) :
  (forall i st em, polls i = PollJson st em ->
     is_final_status (default "Unknown" st) = false) ->
  forall attempts i,
    sr_status (poll_status polls attempts i) = Some "Unknown".
Proof.
  intros Hnf. induction attempts as [|k IH]; intros i; simpl; [reflexivity|].
  destruct (polls i) as [|st em] eqn:E; [apply IH|].
  rewrite (Hnf i st em E). apply IH.
Qed.

(** ** Settlement of a play batch *)

(** [C2] When the settlement of a batch is confirmed, the house's
    winnings-paid counter grows by exactly [net_result - 0.5] if the net
    result is positive and stays as it was if the net result is negative or
    zero. *)
Theorem winnings_counter_after_settlement (cfg : Config) (env : Env)
    (v : Variant) (amount : Q) (user_id num_spins : Z) (w : World)
    (account : Account) (g : GameStats) :
  users w !! user_id = Some account ->
  game_stats w = Some g ->
  let s := settle (rules_of v) amount num_spins (dice_of env num_spins) in
  (~ net_result s == 0 ->
   res_status (submit_answer cfg env (length (ledger_calls w)))
   = Some "CommittedSuccess") ->
  let w' := snd (process_batch cfg env (rules_of v) amount user_id num_spins w) in
  (0 < net_result s ->
   winnings_paid w' = winnings_paid w + (net_result s - 0.5)
   /\ withdrawals (settle_spin_manifest (game_address g)
                     (radix_address account) (net_result s))
      = [(game_address g, net_result s)])
  /\ (net_result s <= 0 -> winnings_paid w' = winnings_paid w).
Proof.
  intros Hu Hg s Hconf w'. subst w'.
  destruct w; simpl in Hu, Hg; cbn [ledger_calls] in Hconf; subst.
  unfold process_batch; mrun; rewrite send_dice_run; fields.
  rewrite Hu; fields. fold (dice_of env num_spins). fold s.
  destruct (Qneqb (net_result s) 0) eqn:Hne.
  - apply Qneqb_true in Hne.
    pose proof (submit_answer_status_no_error _ _ _ _ (Hconf Hne)) as Herr.
    destruct (Qgtb (net_result s) 0) eqn:Hgt;
      rewrite submit_transaction_run; fields; rewrite Herr; fields.
    + split; [intros _|apply Qgtb_true in Hgt; intros Hle; lra].
      split; [reflexivity|].
      unfold settle_spin_manifest. rewrite Hgt. reflexivity.
    + apply Qgtb_false in Hgt. split; [|reflexivity]. intros Hlt. lra.
  - apply Qneqb_false in Hne.
    assert (Hgt : Qgtb (net_result s) 0 = false) by (apply Qgtb_false; lra).
    rewrite Hgt. fields. split; [|reflexivity]. intros Hlt. lra.
Qed.

Lemma winnings_counter_after_settlement_witness :
  let w' := snd (process_batch Example.cfg Example.env_win (rules_of Standard)
                   10 7 3 Example.world) in
  winnings_paid w' = winnings_paid Example.world
                     + (net_result (settle (rules_of Standard) 10 3
                                      (dice_of Example.env_win 3)) - 0.5)
  /\ winnings_paid w' == 89.5.
Proof.
  split; [|vm_compute; reflexivity].
  destruct (winnings_counter_after_settlement Example.cfg Example.env_win
              Standard 10 7 3 Example.world Example.alice Example.house)
    as [Hwin _].
  - reflexivity.
  - reflexivity.
  - intros _. vm_compute. reflexivity.
  - apply Hwin. vm_compute. reflexivity.
Defined.

(** [C4] What a settlement submits.  A zero net result submits nothing and
    the batch ends with its results; a positive net result submits exactly one
    manifest that moves [net_result] from the house to the user, sent with the
    house's keys; a negative one submits exactly one manifest that moves
    [abs(net_result)] from the user to the house, sent with the user's keys. *)
Theorem settlement_submission (cfg : Config) (env : Env)
    (v : Variant) (amount : Q) (user_id num_spins : Z) (w : World)
    (account : Account) (g : GameStats) :
  users w !! user_id = Some account ->
  game_stats w = Some g ->
  let s := settle (rules_of v) amount num_spins (dice_of env num_spins) in
  let run := process_batch cfg env (rules_of v) amount user_id num_spins w in
  let m := settle_spin_manifest (game_address g) (radix_address account)
             (net_result s) in
  (net_result s == 0 ->
   fst run = Ok tt
   /\ ledger_calls (snd run) = ledger_calls w
   /\ winnings_paid (snd run) = winnings_paid w
   /\ sent (snd run)
      = (((sent w ++ [MsgRolling num_spins amount])
          ++ map MsgDice (dice_of env num_spins))
         ++ [MsgResults s false])%list)
  /\ (0 < net_result s ->
      ledger_calls (snd run)
      = (ledger_calls w
         ++ [SubmitTransaction m (game_address g) (game_private_key g)
               (game_public_key g)])%list
      /\ withdrawals m = [(game_address g, net_result s)]
      /\ deposits m = [radix_address account]
      /\ fee_payers m = [game_address g])
  /\ (net_result s < 0 ->
      ledger_calls (snd run)
      = (ledger_calls w
         ++ [SubmitTransaction m (radix_address account) (private_key account)
               (public_key account)])%list
      /\ withdrawals m = [(radix_address account, Qabs (net_result s))]
      /\ deposits m = [game_address g]
      /\ fee_payers m = [radix_address account]).
Proof.
  intros Hu Hg s run m. subst run.
  destruct w; simpl in Hu, Hg; subst.
  unfold process_batch; mrun; rewrite send_dice_run; fields.
  rewrite Hu; fields. fold (dice_of env num_spins). fold s.
  split; [|split].
  - intros H0. apply Qneqb_false in H0 as Hne.
    assert (Hgt : Qgtb (net_result s) 0 = false) by (apply Qgtb_false; lra).
    rewrite Hne, Hgt. fields. repeat split.
  - intros Hpos. apply Qgtb_true in Hpos as Hgt.
    assert (Hne : Qneqb (net_result s) 0 = true) by (apply Qneqb_true; lra).
    rewrite Hne, Hgt, submit_transaction_run. fields.
    subst m. unfold settle_spin_manifest. rewrite Hgt.
    destruct (res_error _); fields; rewrite ?Hgt; fields; repeat split.
  - intros Hneg.
    assert (Hgt : Qgtb (net_result s) 0 = false) by (apply Qgtb_false; lra).
    assert (Hne : Qneqb (net_result s) 0 = true) by (apply Qneqb_true; lra).
    rewrite Hne, Hgt, submit_transaction_run. fields.
    subst m. unfold settle_spin_manifest. rewrite Hgt.
    destruct (res_error _); fields; rewrite ?Hgt; fields; repeat split.
Qed.

Lemma settlement_submission_witness :
  let run := process_batch Example.cfg Example.env_lose (rules_of Standard)
               5 7 3 Example.world in
  net_result (settle (rules_of Standard) 5 3 (dice_of Example.env_lose 3)) < 0
  /\ ledger_calls (snd run)
     = [SubmitTransaction
          (settle_spin_manifest "account_house" "account_alice"
             (net_result (settle (rules_of Standard) 5 3
                            (dice_of Example.env_lose 3))))
          "account_alice" "private_alice" "public_alice"].
Proof.
  assert (Hneg : net_result (settle (rules_of Standard) 5 3
                               (dice_of Example.env_lose 3)) < 0)
    by (vm_compute; reflexivity).
  split; [exact Hneg|].
  destruct (settlement_submission Example.cfg Example.env_lose Standard 5 7 3
              Example.world Example.alice Example.house
              eq_refl eq_refl) as (_ & _ & Hlose).
  destruct (Hlose Hneg) as (Hcalls & _).
  exact Hcalls.
Defined.

(** Every exit of a batch leaves the user's flag cleared. *)
Lemma process_batch_releases_guard (cfg : Config) (env : Env)
    (rules : GameRules) (amount : Q) (user_id num_spins : Z) (w : World) :
  ongoing_spins (snd (process_batch cfg env rules amount user_id num_spins w))
    !! user_id = Some false.
Proof.
  unfold process_batch, try_finally.
  destruct (try_except _ _ w) as [r w1].
  unfold mark_ongoing, modify. fields. apply lookup_insert_eq.
Qed.

(** A positive net result whose submission never reaches a final status
    within the polls is added to the counter all the same. *)
Lemma pending_submission_is_recorded (cfg : Config) (env : Env)
    (v : Variant) (amount : Q) (user_id num_spins : Z) (w : World)
    (account : Account) (g : GameStats)
    (transaction_id : string) (polls : nat -> PollResponse) :
  SIMULATION_MODE cfg = false ->
  USING_REAL_TOOLKIT cfg = true ->
  users w !! user_id = Some account ->
  game_stats w = Some g ->
  gateway env (length (ledger_calls w))
  = GatewaySubmitted transaction_id polls ->
  (forall i st em, polls i = PollJson st em ->
     is_final_status (default "Unknown" st) = false) ->
  let s := settle (rules_of v) amount num_spins (dice_of env num_spins) in
  0 < net_result s ->
  let w' := snd (process_batch cfg env (rules_of v) amount user_id num_spins w) in
  res_status (submit_answer cfg env (length (ledger_calls w))) = Some "Unknown"
  /\ winnings_paid w' = winnings_paid w + (net_result s - 0.5).
Proof.
  intros Hsim Hreal Hu Hg Hgw Hpending s Hpos w'. subst w'.
  assert (Hans : submit_answer cfg env (length (ledger_calls w))
                 = {| res_error := None;
                      res_transaction_id := Some transaction_id;
                      res_status := Some "Unknown";
                      res_error_message :=
                        Some (default ""
                                (sr_error_message (poll_status polls 10 0))) |}).
  { unfold submit_answer, check_transaction_status.
    rewrite Hsim, Hreal, Hgw.
    rewrite (poll_status_never_final polls Hpending). reflexivity. }
  rewrite Hans. split; [reflexivity|].
  destruct w; simpl in Hu, Hg; cbn [ledger_calls] in Hans; subst.
  unfold process_batch; mrun; rewrite send_dice_run; fields.
  rewrite Hu; fields. fold (dice_of env num_spins). fold s.
  apply Qgtb_true in Hpos as Hgt.
  assert (Hne : Qneqb (net_result s) 0 = true) by (apply Qneqb_true; lra).
  rewrite Hne, Hgt, submit_transaction_run. fields. rewrite Hans. fields.
  reflexivity.
Qed.

(** [C1] A batch of one winning standard play of 10 whose submission is
    still pending after the ten status polls: the submission comes back with
    status "Unknown" and without an "error" key, the batch is reported with
    its results as any successful one, and the counter of winnings paid grows
    from 0 to 109.5; the busy flag of the user is cleared. *)
Theorem unknown_status_settled_as_success :
  let run := process_multiple_spins Example.cfg Example.env_unknown
               10 7 1 Example.world in
  let s := settle spin_rules 10 1 (dice_of Example.env_unknown 1) in
  submit_answer Example.cfg Example.env_unknown 0
  = {| res_error := None; res_transaction_id := Some "txid_1";
       res_status := Some "Unknown";
       res_error_message :=
         Some "Timed out waiting for transaction confirmation" |}
  /\ fst run = Ok tt
  /\ sent (snd run) = [MsgRolling 1 10; MsgDice 1; MsgResults s true]
  /\ net_result s == 110
  /\ winnings_paid Example.world == 0
  /\ winnings_paid (snd run) == 109.5
  /\ ongoing_spins (snd run) !! 7%Z = Some false.
Proof.
  vm_compute. repeat split.
Qed.

(** ** Worlds that differ in messages and trace only *)

Lemma only_replied_refl (w : World) : only_replied w w.
Proof. repeat split. Qed.

Lemma only_replied_sent (f : list Message -> list Message) (w : World) :
  only_replied w (set_sent f w).
Proof. repeat split. Qed.

Lemma only_replied_trans (w1 w2 w3 : World) :
  only_replied w1 w2 -> only_replied w2 w3 -> only_replied w1 w3.
Proof.
  unfold only_replied. intros H1 H2.
  destruct H1 as (?&?&?&?&?&?&?&?), H2 as (?&?&?&?&?&?&?&?).
  repeat split; congruence.
Qed.

Lemma only_replied_observed (w w' : World) :
  only_replied w w' -> only_observed w w'.
Proof.
  unfold only_replied, only_observed. intros (?&?&?&?&?&?&?&?).
  repeat split; assumption.
Qed.

Lemma only_observed_refl (w : World) : only_observed w w.
Proof. repeat split. Qed.

Lemma only_observed_trans (w1 w2 w3 : World) :
  only_observed w1 w2 -> only_observed w2 w3 -> only_observed w1 w3.
Proof.
  unfold only_observed. intros H1 H2.
  destruct H1 as (?&?&?&?&?&?&?), H2 as (?&?&?&?&?&?&?).
  repeat split; congruence.
Qed.

Lemma only_observed_sent (f : list Message -> list Message) (w : World) :
  only_observed w (set_sent f w).
Proof. repeat split. Qed.

Lemma only_observed_traced (c : LedgerCall) (w : World) :
  only_observed w (traced c w).
Proof. repeat split. Qed.

Lemma length_traced (c : LedgerCall) (w : World) :
  length (ledger_calls (traced c w)) = S (length (ledger_calls w)).
Proof. unfold traced. fields. rewrite length_app. simpl. lia. Qed.

(** ** The admission checks *)

Lemma check_maintenance_mode_run cfg update (w : World) :
  exists b w', check_maintenance_mode cfg update w = (Ok b, w')
               /\ only_replied w w'.
Proof.
  unfold check_maintenance_mode. mrun.
  destruct (bool_decide _).
  - exists true, w. split; [reflexivity|apply only_replied_refl].
  - destruct (MAINTENANCE_MODE w).
    + eexists _, _. split; [reflexivity|apply only_replied_sent].
    + exists true, w. split; [reflexivity|apply only_replied_refl].
Qed.

Lemma check_chat_permissions_run cfg update (w : World) :
  exists b w', check_chat_permissions cfg update w = (Ok b, w')
               /\ only_replied w w'.
Proof.
  unfold check_chat_permissions, check_whitelist. mrun.
  repeat match goal with
         | |- context [if ?c then _ else _] => destruct c
         end;
    eexists _, _; (split; [reflexivity|]);
    first [apply only_replied_refl | apply only_replied_sent].
Qed.

(** ** The wager validator: resolving the requested amount *)

Lemma get_spin_amount_run cfg env update arg seven die (w : World) :
  exists r w', get_spin_amount cfg env update arg seven die w = (Ok r, w')
               /\ only_observed w w'.
Proof.
  unfold get_spin_amount, get_game_account_balance, get_game_account_info.
  mrun.
  destruct (game_stats w) as [g|];
    [|eexists _, _; split; [reflexivity|apply only_observed_sent]].
  rewrite get_radix_balance_run.
  destruct (balance_answer cfg env (length (ledger_calls w)) (game_address g))
    as [game_balance|e];
    [|eexists _, _; split; [reflexivity|];
      eapply only_observed_trans;
        [apply only_observed_traced|apply only_observed_sent]].
  destruct (tok_is_max arg).
  - fields. destruct (users w !! effective_user_id update) as [account|].
    + rewrite get_radix_balance_run.
      destruct (balance_answer _ _ _ (radix_address account)) as [ub|e].
      * destruct (Qltb _ _); eexists _, _; (split; [reflexivity|]).
        -- eapply only_observed_trans; [apply only_observed_traced|].
           eapply only_observed_trans; [apply only_observed_traced|].
           apply only_observed_sent.
        -- eapply only_observed_trans; apply only_observed_traced.
      * eexists _, _; split; [reflexivity|].
        eapply only_observed_trans; [apply only_observed_traced|].
        eapply only_observed_trans; [apply only_observed_traced|].
        apply only_observed_sent.
    + eexists _, _; split; [reflexivity|].
      eapply only_observed_trans; [apply only_observed_traced|].
      apply only_observed_sent.
  - destruct (tok_float arg) as [q|].
    + destruct (Qltb q MIN_SPIN_AMOUNT); [|destruct (Qgtb q _)];
        eexists _, _; (split; [reflexivity|]);
        try (eapply only_observed_trans; [apply only_observed_traced|];
             apply only_observed_sent).
      apply only_observed_traced.
    + eexists _, _; split; [reflexivity|].
      eapply only_observed_trans; [apply only_observed_traced|].
      apply only_observed_sent.
Qed.

(** [C6] Resolving the requested amount, once the house balance [hb] is
    read.  For "max" the amount is [min(max_bet, user_balance - 0.5)] and the
    request is rejected exactly when that value is below the minimum stake.
    A number below the minimum stake is rejected; a number that reaches the
    minimum and exceeds the maximum bet is answered with the maximum bet, and
    every other number with itself: no number is rejected for being too
    large. *)
Theorem resolve_requested_amount (cfg : Config) (env : Env) (update : Update)
    (arg : Token) (seven die : bool) (w : World) (g : GameStats) (hb : Q) :
  game_stats w = Some g ->
  balance_answer cfg env (length (ledger_calls w)) (game_address g) = Ok hb ->
  let max_bet := calculate_max_bet (MAX_WIN_PERCENTAGE cfg) hb seven die in
  let result := fst (get_spin_amount cfg env update arg seven die w) in
  (tok_is_max arg = true ->
   forall (account : Account) (ub : Q),
     users w !! effective_user_id update = Some account ->
     balance_answer cfg env (S (length (ledger_calls w)))
       (radix_address account) = Ok ub ->
     let v := Qmin max_bet (ub - 0.5) in
     (v < MIN_SPIN_AMOUNT -> result = Ok None)
     /\ (~ v < MIN_SPIN_AMOUNT ->
         exists amount, result = Ok (Some amount) /\ amount == v))
  /\ (tok_is_max arg = false ->
      forall q : Q, tok_float arg = Some q ->
        (q < MIN_SPIN_AMOUNT -> result = Ok None)
        /\ (MIN_SPIN_AMOUNT <= q -> max_bet < q -> result = Ok (Some max_bet))
        /\ (MIN_SPIN_AMOUNT <= q -> q <= max_bet -> result = Ok (Some q))).
Proof.
  intros Hg Hb max_bet result. subst result.
  unfold get_spin_amount, get_game_account_balance, get_game_account_info.
  mrun. rewrite Hg, get_radix_balance_run, Hb. fold max_bet.
  split.
  - intros Hmax account ub Hu Hub. set (v := Qmin max_bet (ub - 0.5)).
    rewrite Hmax. fields. rewrite Hu.
    rewrite get_radix_balance_run, length_traced, Hub.
    assert (Hv : Qmin max_bet (Qmax 0 (ub - 0.5)) < MIN_SPIN_AMOUNT
                 <-> v < MIN_SPIN_AMOUNT).
    { unfold v, MIN_SPIN_AMOUNT.
      destruct (Q.max_spec 0 (ub - 0.5)) as [[? E1] | [? E1]];
        destruct (Q.min_spec max_bet (Qmax 0 (ub - 0.5))) as [[? E2] | [? E2]];
        destruct (Q.min_spec max_bet (ub - 0.5)) as [[? E3] | [? E3]];
        rewrite E2, E3; rewrite E1 in *; lra. }
    split.
    + intros Hlt. apply Hv, Qltb_true in Hlt. rewrite Hlt. reflexivity.
    + intros Hge.
      destruct (Qltb (Qmin max_bet (Qmax 0 (ub - 0.5))) MIN_SPIN_AMOUNT) eqn:E.
      * apply Qltb_true, Hv in E. contradiction.
      * eexists. split; [reflexivity|].
        apply Qltb_false in E. unfold v, MIN_SPIN_AMOUNT in *.
        destruct (Q.max_spec 0 (ub - 0.5)) as [[? E1] | [? E1]].
        -- rewrite E1. reflexivity.
        -- destruct (Q.min_spec max_bet (Qmax 0 (ub - 0.5)))
             as [[? E2] | [? E2]]; rewrite E2 in E; rewrite E1 in *; lra.
  - intros Hmax q Hq. rewrite Hmax, Hq. split; [|split].
    + intros Hlt. apply Qltb_true in Hlt. rewrite Hlt. reflexivity.
    + intros Hge Hover. apply Qltb_false in Hge. apply Qgtb_true in Hover.
      rewrite Hge, Hover. reflexivity.
    + intros Hge Hin. apply Qltb_false in Hge. apply Qgtb_false in Hin.
      rewrite Hge, Hin. reflexivity.
Qed.

Lemma resolve_requested_amount_witness :
  (fst (get_spin_amount Example.cfg Example.env_win Example.update
          (Example.number "250" 250 None) false false Example.world)
   = Ok (Some (calculate_max_bet 5 24000 false false))
   /\ calculate_max_bet 5 24000 false false == 100)
  /\ (exists amount,
        fst (get_spin_amount Example.cfg Example.env_win Example.update
               Example.max_token false false Example.world)
        = Ok (Some amount)
        /\ amount == Qmin (calculate_max_bet 5 24000 false false) (500 - 0.5)).
Proof.
  split.
  - split; [|vm_compute; reflexivity].
    destruct (resolve_requested_amount Example.cfg Example.env_win
                Example.update (Example.number "250" 250 None) false false
                Example.world Example.house 24000 eq_refl eq_refl)
      as [_ Hnum].
    destruct (Hnum eq_refl 250 eq_refl) as (_ & Hover & _).
    apply Hover; vm_compute; [discriminate|reflexivity].
  - destruct (resolve_requested_amount Example.cfg Example.env_win
                Example.update Example.max_token false false
                Example.world Example.house 24000 eq_refl eq_refl)
      as [Hmax _].
    destruct (Hmax eq_refl Example.alice 500 eq_refl eq_refl) as [_ Haccept].
    apply Haccept. vm_compute. discriminate.
Defined.

(** ** The session guard of [/spin] *)

Lemma is_ongoing_marked (user_id : Z) (flag : bool) (m : gmap Z bool) :
  is_ongoing (<[user_id := flag]> m) user_id = flag.
Proof. unfold is_ongoing. rewrite lookup_insert_eq. reflexivity. Qed.

(** A request that comes while the user's flag is set changes nothing but
    the messages sent. *)
Lemma spin_while_busy cfg env update args (w : World) :
  is_ongoing (ongoing_spins w) (effective_user_id update) = true ->
  only_replied w (snd (spin cfg env update args w)).
Proof.
  intros Hbusy. unfold spin. mrun.
  destruct (check_maintenance_mode_run cfg update w) as (b1 & w1 & E1 & R1).
  rewrite E1. destruct b1; simpl; [|exact R1].
  destruct (check_chat_permissions_run cfg update w1) as (b2 & w2 & E2 & R2).
  rewrite E2. pose proof (only_replied_trans _ _ _ R1 R2) as R.
  destruct b2; simpl; [|exact R].
  destruct R as (Ho & ?). rewrite Ho, Hbusy. fields.
  eapply only_replied_trans; [|apply only_replied_sent].
  eapply only_replied_trans; eassumption.
Qed.

(** Either a request admits no batch, or the flag was clear before and is
    set afterwards. *)
Lemma spin_admits cfg env update args (w : World) :
  let w' := snd (spin cfg env update args w) in
  tasks w' = tasks w
  \/ (is_ongoing (ongoing_spins w) (effective_user_id update) = false
      /\ is_ongoing (ongoing_spins w') (effective_user_id update) = true
      /\ exists amount num_spins,
           tasks w'
           = (tasks w ++ [{| pb_amount := amount;
                             pb_user_id := effective_user_id update;
                             pb_num_spins := num_spins |}])%list).
Proof.
  unfold spin. mrun.
  destruct (check_maintenance_mode_run cfg update w) as (b1 & w1 & E1 & R1).
  rewrite E1. destruct b1; simpl;
    [|left; destruct R1 as (?&?&?&?&?&?&?&?); assumption].
  destruct (check_chat_permissions_run cfg update w1) as (b2 & w2 & E2 & R2).
  rewrite E2. pose proof (only_replied_trans _ _ _ R1 R2) as R.
  destruct R as (Ho & _ & _ & _ & _ & _ & _ & Ht).
  destruct b2; simpl; [|left; exact Ht].
  destruct (is_ongoing (ongoing_spins w2) (effective_user_id update)) eqn:Hfree;
    [left; exact Ht|].
  rewrite Ho in Hfree.
  destruct args as [|arg0 more]; [left; exact Ht|].
  set (parsed := match more with [] => inl 1%Z | _ => _ end).
  destruct parsed as [num_spins | m]; [|left; exact Ht].
  destruct (get_spin_amount_run cfg env update arg0 false false
              (set_ongoing_spins
                 (fun m => <[effective_user_id update := true]> m) w2))
    as (r & w3 & E3 & R3).
  rewrite E3. destruct R3 as (Ho3 & _ & Hu3 & _ & _ & _ & Ht3).
  fields_in Ho3. fields_in Ht3. fields_in Hu3.
  destruct r as [amount|]; [|left; fields; congruence].
  destruct (users w3 !! effective_user_id update) as [account|];
    [|left; fields; congruence].
  rewrite get_radix_balance_run.
  destruct (balance_answer _ _ _ _) as [balance|e]; [|left; fields; congruence].
  destruct (Qltb balance _); [left; fields; congruence|].
  right. fields. split; [exact Hfree|]. split.
  - rewrite Ho3. apply is_ongoing_marked.
  - exists amount, num_spins. rewrite Ht3, Ht. reflexivity.
Qed.

(** [C7] The session guard.  A [/spin] request made while the user's flag is
    set is turned away and changes nothing but the messages sent; hence, once
    a first request has admitted a batch, the flag is set and a second request
    of the same user admits none; and clearing the flag twice is the same as
    clearing it once. *)
Theorem session_guard (cfg : Config) (env : Env) (update : Update)
    (args : list Token) (w : World) :
  let user_id := effective_user_id update in
  let w1 := snd (spin cfg env update args w) in
  (is_ongoing (ongoing_spins w) user_id = true -> only_replied w w1)
  /\ (tasks w1 <> tasks w ->
      is_ongoing (ongoing_spins w) user_id = false
      /\ is_ongoing (ongoing_spins w1) user_id = true
      /\ forall (update2 : Update) (args2 : list Token),
           effective_user_id update2 = user_id ->
           only_replied w1 (snd (spin cfg env update2 args2 w1)))
  /\ snd (mark_ongoing user_id false (snd (mark_ongoing user_id false w)))
     = snd (mark_ongoing user_id false w).
Proof.
  intros user_id w1. split; [|split].
  - apply spin_while_busy.
  - intros Hadmitted.
    destruct (spin_admits cfg env update args w) as [Hsame | (Hfree & Hset & _)];
      [contradiction|].
    split; [exact Hfree|]. split; [exact Hset|].
    intros update2 args2 Hid. apply spin_while_busy.
    rewrite Hid. exact Hset.
  - unfold mark_ongoing, modify, set_ongoing_spins. simpl.
    rewrite insert_insert_eq. reflexivity.
Qed.

Lemma session_guard_witness :
  let args := [Example.number "10" 10 None; Example.number "3" 3 (Some 3%Z)] in
  let w1 := snd (spin Example.cfg Example.env_win Example.update args
                   Example.world) in
  tasks w1 = [{| pb_amount := 10; pb_user_id := 7; pb_num_spins := 3 |}]
  /\ is_ongoing (ongoing_spins w1) 7 = true
  /\ only_replied w1
       (snd (spin Example.cfg Example.env_win Example.update args w1)).
Proof.
  intros args w1.
  assert (Hadmitted : tasks w1 <> tasks Example.world)
    by (vm_compute; discriminate).
  destruct (session_guard Example.cfg Example.env_win Example.update args
              Example.world) as (_ & Hsecond & _).
  destruct (Hsecond Hadmitted) as (_ & Hset & Hreject).
  split; [vm_compute; reflexivity|].
  split; [exact Hset|].
  apply Hreject. reflexivity.
Defined.

(** ** Withdrawals *)

Lemma submissions_app (l1 l2 : list LedgerCall) :
  submissions (l1 ++ l2) = (submissions l1 ++ submissions l2)%list.
Proof. unfold submissions. apply List.filter_app. Qed.

(** [C9] as the design states it fails: a withdrawal of 1 by a user who holds
    500 is turned away for being at most 1.01, yet only after the user's
    balance has been queried on the ledger. *)
Lemma withdraw_small_amount_queries_balance :
  let args := [Example.word "account_bob"; Example.number "1" 1 None] in
  let run := withdraw Example.cfg Example.env_win Example.withdraw_update args
               Example.world in
  1 <= 1.01
  /\ fst run = Ok tt
  /\ sent (snd run) = [MsgWithdrawMinimum]
  /\ ledger_calls Example.world = []
  /\ ledger_calls (snd run) = [BalanceQuery "account_alice"]
  /\ ledger_calls (snd run) <> ledger_calls Example.world.
Proof.
  vm_compute. repeat split; discriminate.
Qed.

(** [C9] A withdrawal request for an amount of at most 1.01 is never
    submitted to the ledger and records no transaction: it leaves everything
    but the messages and the trace of ledger calls as it was, and the trace
    grows by at most one query of the user's balance; a request for an amount
    of at most 0 is turned away before any ledger call. *)
Theorem small_withdrawal_not_submitted (cfg : Config) (env : Env)
    (update : Update) (arg0 arg1 : Token) (rest : list Token) (w : World)
    (a : Q) :
  tok_float arg1 = Some a ->
  a <= 1.01 ->
  let w' := snd (withdraw cfg env update (arg0 :: arg1 :: rest) w) in
  only_observed w w'
  /\ submissions (ledger_calls w') = submissions (ledger_calls w)
  /\ (ledger_calls w' = ledger_calls w
      \/ exists account,
           users w !! effective_user_id update = Some account
           /\ ledger_calls w'
              = (ledger_calls w ++ [BalanceQuery (radix_address account)])%list)
  /\ (a <= 0 -> ledger_calls w' = ledger_calls w).
Proof.
  intros Ha Hsmall. unfold withdraw. mrun.
  assert (Hquiet : forall w2, only_replied w w2 ->
            only_observed w w2
            /\ submissions (ledger_calls w2) = submissions (ledger_calls w)
            /\ (ledger_calls w2 = ledger_calls w
                \/ exists account,
                     users w !! effective_user_id update = Some account
                     /\ ledger_calls w2
                        = (ledger_calls w
                           ++ [BalanceQuery (radix_address account)])%list)
            /\ (a <= 0 -> ledger_calls w2 = ledger_calls w)).
  { intros w2 R. pose proof (only_replied_observed _ _ R) as Hobs.
    destruct R as (_&_&_&_&_&_&Hl&_). rewrite Hl. auto. }
  destruct (check_maintenance_mode_run cfg update w) as (b1 & w1 & E1 & R1).
  rewrite E1. destruct b1; simpl; [|apply Hquiet; exact R1].
  destruct (check_chat_permissions_run cfg update w1) as (b2 & w2 & E2 & R2).
  rewrite E2. pose proof (only_replied_trans _ _ _ R1 R2) as R.
  destruct b2; simpl; [|apply Hquiet; exact R].
  destruct (is_ongoing (ongoing_spins w2) (effective_user_id update)).
  { apply Hquiet. eapply only_replied_trans; [exact R|apply only_replied_sent]. }
  rewrite Ha.
  destruct (Qle_bool a 0) eqn:Hpos.
  { apply Hquiet. eapply only_replied_trans; [exact R|apply only_replied_sent]. }
  apply Qle_bool_false in Hpos.
  pose proof R as (_ & _ & Hu & _ & _ & _ & Hl & _). rewrite Hu.
  destruct (users w !! effective_user_id update) as [account|] eqn:Hacc.
  2:{ apply Hquiet. eapply only_replied_trans; [exact R|apply only_replied_sent]. }
  rewrite get_radix_balance_run.
  assert (Hquery : forall w3,
            only_replied (traced (BalanceQuery (radix_address account)) w2) w3 ->
            only_observed w w3
            /\ submissions (ledger_calls w3) = submissions (ledger_calls w)
            /\ (ledger_calls w3 = ledger_calls w
                \/ exists account0,
                     Some account = Some account0
                     /\ ledger_calls w3
                        = (ledger_calls w
                           ++ [BalanceQuery (radix_address account0)])%list)
            /\ (a <= 0 -> ledger_calls w3 = ledger_calls w)).
  { intros w3 R3. pose proof R3 as (_&_&_&_&_&_&Hl3&_). fields_in Hl3.
    rewrite Hl in Hl3. split; [|split; [|split]].
    - eapply only_observed_trans; [apply only_replied_observed; exact R|].
      eapply only_observed_trans; [apply only_observed_traced|].
      apply only_replied_observed. exact R3.
    - rewrite Hl3, submissions_app. simpl. apply app_nil_r.
    - right. exists account. split; [reflexivity|exact Hl3].
    - intros H0. lra. }
  destruct (balance_answer _ _ _ _) as [balance|e];
    [|apply Hquery; apply only_replied_refl].
  simpl. destruct (Qgtb a balance); [apply Hquery; apply only_replied_sent|].
  apply Qle_bool_iff in Hsmall. rewrite Hsmall.
  apply Hquery. apply only_replied_sent.
Qed.

Lemma small_withdrawal_not_submitted_witness :
  let args := [Example.word "account_bob"; Example.number "1" 1 None] in
  let w' := snd (withdraw Example.cfg Example.env_win Example.withdraw_update
                   args Example.world) in
  1 <= 1.01
  /\ only_observed Example.world w'
  /\ submissions (ledger_calls w') = submissions (ledger_calls Example.world).
Proof.
  intros args w'.
  assert (Hsmall : 1 <= 1.01) by (vm_compute; discriminate).
  destruct (small_withdrawal_not_submitted Example.cfg Example.env_win
              Example.withdraw_update (Example.word "account_bob")
              (Example.number "1" 1 None) [] Example.world 1 eq_refl Hsmall)
    as (Hobs & Hsub & _).
  split; [exact Hsmall|]. split; [exact Hobs|exact Hsub].
Defined.

(** [C10] A successful withdrawal of a requested amount [a] above 1.01 and
    within the balance: the submitted manifest withdraws [a - 1.000001] from
    the user's account, the transaction record that is appended stores
    [a - 1.000001], and the user is told that [a - 1.000001] was withdrawn
    with a fee of 1.000001. *)
Theorem successful_withdrawal (cfg : Config) (env : Env) (update : Update)
    (arg0 arg1 : Token) (rest : list Token) (w : World)
    (account : Account) (a balance : Q) :
  admitted cfg update w ->
  is_ongoing (ongoing_spins w) (effective_user_id update) = false ->
  tok_float arg1 = Some a ->
  users w !! effective_user_id update = Some account ->
  balance_answer cfg env (length (ledger_calls w)) (radix_address account)
  = Ok balance ->
  1.01 < a ->
  a <= balance ->
  res_status (submit_answer cfg env (S (length (ledger_calls w))))
  = Some "CommittedSuccess" ->
  let run := withdraw cfg env update (arg0 :: arg1 :: rest) w in
  let address := radix_address account in
  let m := withdraw_tokens_manifest address (tok_text arg0) a in
  let transaction_id :=
    default "unknown"
      (res_transaction_id (submit_answer cfg env (S (length (ledger_calls w))))) in
  fst run = Ok tt
  /\ ledger_calls (snd run)
     = ((ledger_calls w ++ [BalanceQuery address])
        ++ [SubmitTransaction m address (private_key account)
              (public_key account)])%list
  /\ withdrawals m = [(address, a - 1.000001)]
  /\ deposits m = [tok_text arg0]
  /\ transactions (snd run)
     = (transactions w
        ++ [{| tr_telegram_id := effective_user_id update;
               tr_action := "withdraw";
               tr_amount := a - 1.000001 |}])%list
  /\ sent (snd run)
     = (sent w
        ++ [MsgWithdrawSuccess (a - 1.000001) (tok_text arg0) 1.000001
              transaction_id])%list.
Proof.
  intros [Hgate1 Hgate2] Hfree Ha Hu Hb Hlow Hhigh Hok.
  unfold withdraw. mrun. rewrite Hgate1. simpl. rewrite Hgate2. simpl.
  rewrite Hfree, Ha.
  assert (Hpos : Qle_bool a 0 = false) by (apply Qle_bool_false; lra).
  rewrite Hpos, Hu, get_radix_balance_run, Hb. simpl.
  assert (Hgt : Qgtb a balance = false) by (apply Qgtb_false; exact Hhigh).
  assert (Hmin : Qle_bool a 1.01 = false) by (apply Qle_bool_false; exact Hlow).
  rewrite Hgt, Hmin, submit_transaction_run, length_traced.
  rewrite (submit_answer_status_no_error _ _ _ _ Hok), Hok. simpl.
  rewrite orb_true_r. fields. repeat split.
Qed.

Lemma successful_withdrawal_witness :
  let args := [Example.word "account_bob"; Example.number "100" 100 None] in
  let run := withdraw Example.cfg Example.env_win Example.withdraw_update args
               Example.world in
  transactions (snd run)
  = [{| tr_telegram_id := 7; tr_action := "withdraw";
        tr_amount := 100 - 1.000001 |}]
  /\ sent (snd run)
     = [MsgWithdrawSuccess (100 - 1.000001) "account_bob" 1.000001 "txid_1"].
Proof.
  intros args run.
  destruct (successful_withdrawal Example.cfg Example.env_win
              Example.withdraw_update (Example.word "account_bob")
              (Example.number "100" 100 None) [] Example.world
              Example.alice 100 500)
    as (_ & _ & _ & _ & Htx & Hsent).
  - split; reflexivity.
  - reflexivity.
  - reflexivity.
  - reflexivity.
  - reflexivity.
  - vm_compute. reflexivity.
  - vm_compute. discriminate.
  - reflexivity.
  - split; [exact Htx|exact Hsent].
Defined.

(** ** Bounded status polling *)

Lemma poll_status_spec (polls : nat -> PollResponse) :
  forall attempts i,
    (exists k st em,
        (k < attempts)%nat
        /\ polls (i + k)%nat = PollJson (Some st) em
        /\ is_final_status st = true
        /\ (forall j, (j < k)%nat -> poll_is_final (polls (i + j)%nat) = false)
        /\ poll_status polls attempts i
           = {| sr_status := Some st; sr_error_message := em |})
    \/ ((forall j, (j < attempts)%nat -> poll_is_final (polls (i + j)%nat) = false)
        /\ poll_status polls attempts i = timed_out).
Proof.
  induction attempts as [|n IH]; intros i.
  - right. split; [intros j Hj; lia|reflexivity].
  - assert (Hskip : poll_is_final (polls i) = false ->
              poll_status polls (S n) i = poll_status polls n (S i)).
    { simpl. destruct (polls i) as [|st em]; [reflexivity|].
      simpl. intros ->. reflexivity. }
    destruct (poll_is_final (polls i)) eqn:Hfin.
    + left. destruct (polls i) as [|st em] eqn:E; [discriminate|].
      simpl in Hfin. destruct st as [s|]; [|discriminate]. simpl in Hfin.
      exists 0%nat, s, em. rewrite Nat.add_0_r.
      split; [lia|]. split; [exact E|]. split; [exact Hfin|].
      split; [intros j Hj; lia|].
      simpl. rewrite E. simpl. rewrite Hfin. reflexivity.
    + rewrite (Hskip eq_refl).
      assert (Hshift : forall k (P : nat -> Prop),
                (forall j, (j < k)%nat -> P (S i + j)%nat) ->
                forall j, (j < S k)%nat -> poll_is_final (polls (i + j)%nat) = false
                                           \/ P (i + j)%nat).
      { intros k P HP j Hj. destruct j as [|j].
        - left. rewrite Nat.add_0_r. exact Hfin.
        - right. rewrite Nat.add_succ_r. apply HP. lia. }
      destruct (IH (S i))
        as [(k & st' & em' & Hk & Hp & Hf & Hbefore & Hr) | [Hnone Hr]].
      * left. exists (S k), st', em'. rewrite Nat.add_succ_r.
        split; [lia|]. split; [exact Hp|]. split; [exact Hf|].
        split; [|exact Hr].
        intros j Hj.
        destruct (Hshift k (fun x => poll_is_final (polls x) = false) Hbefore j Hj);
          assumption.
      * right. split; [|exact Hr]. intros j Hj.
        destruct (Hshift n (fun x => poll_is_final (polls x) = false) Hnone j Hj);
          assumption.
Qed.

Lemma poll_status_ext (polls polls' : nat -> PollResponse) :
  forall attempts i,
    (forall j, (j < attempts)%nat -> polls' (i + j)%nat = polls (i + j)%nat) ->
    poll_status polls' attempts i = poll_status polls attempts i.
Proof.
  induction attempts as [|n IH]; intros i Hagree; [reflexivity|].
  simpl. pose proof (Hagree 0%nat ltac:(lia)) as H0.
  rewrite Nat.add_0_r in H0. rewrite H0.
  assert (Hrest : poll_status polls' n (S i) = poll_status polls n (S i)).
  { apply IH. intros j Hj. specialize (Hagree (S j) ltac:(lia)).
    rewrite Nat.add_succ_r in Hagree. exact Hagree. }
  rewrite Hrest. reflexivity.
Qed.

(** [X1] Outside simulation, [check_transaction_status] returns the first
    final answer among the first ten polls, with its status and error
    message, and the "Unknown" time-out dictionary when none of the ten is
    final; what the endpoint would answer from the eleventh poll on has no
    influence. *)
Theorem check_transaction_status_first_final (polls : nat -> PollResponse) :
  let r := check_transaction_status false polls in
  ((exists k st em,
       (k < 10)%nat
       /\ polls k = PollJson (Some st) em
       /\ is_final_status st = true
       /\ (forall j, (j < k)%nat -> poll_is_final (polls j) = false)
       /\ r = {| sr_status := Some st; sr_error_message := em |})
   \/ ((forall j, (j < 10)%nat -> poll_is_final (polls j) = false)
       /\ r = timed_out))
  /\ (forall polls' : nat -> PollResponse,
        (forall j, (j < 10)%nat -> polls' j = polls j) ->
        check_transaction_status false polls' = r).
Proof.
  intros r. split.
  - exact (poll_status_spec polls 10 0).
  - intros polls' Hagree. unfold r, check_transaction_status.
    apply poll_status_ext. exact Hagree.
Qed.

Lemma is_final_status_known (st : string) :
  is_final_status st = true -> st ∈ known_statuses.
Proof.
  unfold is_final_status, known_statuses. intros H.
  apply orb_true_iff in H as [H | H];
    [apply orb_true_iff in H as [H | H]|];
    apply bool_decide_eq_true in H; subst; set_solver.
Qed.

(** [X2] A submission never raises and adds exactly one call to the trace.
    Its result carries either the key "error" and no status, or no "error" and
    a status that is one of "CommittedSuccess", "CommittedFailure", "Rejected"
    and "Unknown". *)
Theorem submit_result_shape (cfg : Config) (env : Env) (m : Manifest)
    (a k p : string) (w : World) :
  exists res,
    submit_transaction_with_manifest cfg env m a k p w
    = (Ok res, traced (SubmitTransaction m a k p) w)
    /\ ((exists e, res_error res = Some e /\ res_status res = None)
        \/ (res_error res = None
            /\ exists st, res_status res = Some st /\ st ∈ known_statuses)).
Proof.
  exists (submit_answer cfg env (length (ledger_calls w))).
  split; [apply submit_transaction_run|].
  unfold submit_answer.
  destruct (SIMULATION_MODE cfg) eqn:Hsim.
  { right. split; [reflexivity|]. eexists. split; [reflexivity|].
    unfold known_statuses. set_solver. }
  destruct (USING_REAL_TOOLKIT cfg); [|left; eexists; split; reflexivity].
  destruct (gateway env (length (ledger_calls w))) as [e | txid polls];
    [left; eexists; split; reflexivity|].
  right. split; [reflexivity|]. eexists. split; [reflexivity|].
  unfold check_transaction_status.
  destruct (poll_status_spec polls 10 0)
    as [(i & st & em & _ & _ & Hf & _ & Hr) | [_ Hr]]; rewrite Hr; simpl.
  - apply is_final_status_known, Hf.
  - unfold known_statuses. set_solver.
Qed.

(** ** What a play batch touches *)

(** The frame of a play batch. *)
Lemma process_batch_frame (cfg : Config) (env : Env) (rules : GameRules)
    (amount : Q) (user_id num_spins : Z) (w : World) :
  let run := process_batch cfg env rules amount user_id num_spins w in
  fst run = Ok tt
  /\ ongoing_spins (snd run) = <[user_id := false]> (ongoing_spins w)
  /\ MAINTENANCE_MODE (snd run) = MAINTENANCE_MODE w
  /\ users (snd run) = users w
  /\ whitelist (snd run) = whitelist w
  /\ transactions (snd run) = transactions w
  /\ tasks (snd run) = tasks w
  /\ (ledger_calls (snd run) = ledger_calls w
      \/ exists m a k p,
           ledger_calls (snd run)
           = (ledger_calls w ++ [SubmitTransaction m a k p])%list).
Proof.
  destruct w. unfold process_batch. mrun. rewrite send_dice_run. fields.
  destruct (users0 !! user_id) as [account|]; fields;
    [|rewrite insert_insert_eq; repeat split; left; reflexivity].
  destruct game_stats0 as [g|]; fields;
    [|rewrite insert_insert_eq; repeat split; left; reflexivity].
  destruct (Qneqb _ 0); fields.
  - destruct (Qgtb _ 0) eqn:Hgt; rewrite submit_transaction_run; fields;
      destruct (res_error _); fields; rewrite ?Hgt; fields;
      rewrite ?insert_insert_eq; repeat split; right; eauto.
  - destruct (Qgtb _ 0); fields; repeat split; left; reflexivity.
Qed.


(** [X4] A settlement whose submission comes back with the key "error" is
    abandoned: the counter of winnings paid keeps its value and the user is
    shown the failure with the reason as the ledger client gave it. *)
Theorem failed_settlement_not_recorded (cfg : Config) (env : Env)
    (v : Variant) (amount : Q) (user_id num_spins : Z) (w : World)
    (account : Account) (g : GameStats) (error : string) :
  users w !! user_id = Some account ->
  game_stats w = Some g ->
  let s := settle (rules_of v) amount num_spins (dice_of env num_spins) in
  ~ net_result s == 0 ->
  res_error (submit_answer cfg env (length (ledger_calls w))) = Some error ->
  let w' := snd (process_batch cfg env (rules_of v) amount user_id num_spins w) in
  winnings_paid w' = winnings_paid w
  /\ game_stats w' = game_stats w
  /\ sent w'
     = (((sent w ++ [MsgRolling num_spins amount])
         ++ map MsgDice (dice_of env num_spins))
        ++ [MsgTransactionFailed error])%list.
Proof.
  intros Hu Hg s Hne Herr w'. subst w'.
  destruct w; simpl in Hu, Hg; cbn [ledger_calls] in Herr; subst.
  unfold process_batch; mrun; rewrite send_dice_run; fields.
  rewrite Hu; fields. fold (dice_of env num_spins). fold s.
  apply Qneqb_true in Hne. rewrite Hne.
  destruct (Qgtb (net_result s) 0);
    rewrite submit_transaction_run; fields; rewrite Herr; fields;
    repeat split.
Qed.

Lemma failed_settlement_not_recorded_witness :
  let env := {| ledger_balance := Example.balances;
                gateway := fun _ => GatewayError "connection refused";
                dice := Example.first_wins |} in
  let w' := snd (process_batch Example.cfg env (rules_of Standard) 10 7 1
                   Example.world) in
  winnings_paid w' = winnings_paid Example.world
  /\ sent w' = [MsgRolling 1 10; MsgDice 1;
                MsgTransactionFailed "connection refused"].
Proof.
  intros env w'.
  destruct (failed_settlement_not_recorded Example.cfg env Standard 10 7 1
              Example.world Example.alice Example.house "connection refused")
    as (Hpaid & _ & Hsent).
  - reflexivity.
  - reflexivity.
  - vm_compute. discriminate.
  - reflexivity.
  - split; [exact Hpaid|exact Hsent].
Defined.

(** [X5] A batch whose user row or game row is missing is dropped after the
    dice have been sent: it makes no ledger call, leaves the counter as it
    was and tells the user which row is missing. *)
Theorem batch_without_rows (cfg : Config) (env : Env) (rules : GameRules)
    (amount : Q) (user_id num_spins : Z) (w : World) :
  users w !! user_id = None \/ game_stats w = None ->
  let w' := snd (process_batch cfg env rules amount user_id num_spins w) in
  ledger_calls w' = ledger_calls w
  /\ game_stats w' = game_stats w
  /\ exists m,
       (m = MsgAccountNotFound \/ m = MsgGameNotConfigured)
       /\ (m = MsgAccountNotFound <-> users w !! user_id = None)
       /\ sent w'
          = (((sent w ++ [MsgRolling num_spins amount])
              ++ map MsgDice (dice_of env num_spins)) ++ [m])%list.
Proof.
  intros Hmissing. destruct w; simpl in Hmissing.
  unfold process_batch; mrun; rewrite send_dice_run; fields.
  destruct (users0 !! user_id) as [account|] eqn:Hu; fields.
  - destruct Hmissing as [Hn | Hg]; [discriminate|]. subst. fields.
    repeat split. exists MsgGameNotConfigured.
    split; [right; reflexivity|]. split; [split; discriminate|reflexivity].
  - repeat split. exists MsgAccountNotFound.
    split; [left; reflexivity|]. split; [split; reflexivity|reflexivity].
Qed.

Lemma batch_without_rows_witness :
  let w' := snd (process_batch Example.cfg Example.env_win spin_rules 10 8 2
                   Example.world) in
  ledger_calls w' = []
  /\ sent w' = [MsgRolling 2 10; MsgDice 1; MsgDice 2; MsgAccountNotFound].
Proof.
  intros w'.
  destruct (batch_without_rows Example.cfg Example.env_win spin_rules 10 8 2
              Example.world (or_introl eq_refl)) as (Hcalls & _ & _).
  split; [exact Hcalls|]. vm_compute. reflexivity.
Defined.

(** ** What [/spin] admits *)

Lemma calculate_max_bet_nonneg (pct h : Q) (seven die : bool) :
  0 <= calculate_max_bet pct h seven die.
Proof.
  assert (Hdiv : forall m, 0 < m -> 0 <= Qmax 0 (h * (pct / 100)) / m).
  { intros m Hm. unfold Qdiv. apply Qmult_le_0_compat; [apply Q.le_max_l|].
    apply Qlt_le_weak, Qinv_lt_0_compat, Hm. }
  unfold calculate_max_bet.
  destruct seven; [apply Q.min_glb; [|vm_compute; discriminate]|];
    try destruct die; (apply Q.min_glb; [vm_compute; discriminate|]);
    apply Hdiv; reflexivity.
Qed.

(** An accepted amount is never negative and never above the ceiling. *)
Lemma get_spin_amount_bounds cfg env update arg seven die (w w' : World) (a : Q) :
  get_spin_amount cfg env update arg seven die w = (Ok (Some a), w') ->
  0 <= a <= MAX_SPIN_AMOUNT.
Proof.
  unfold get_spin_amount, get_game_account_balance, get_game_account_info.
  mrun.
  destruct (game_stats w) as [g|]; [|discriminate].
  rewrite get_radix_balance_run.
  destruct (balance_answer cfg env (length (ledger_calls w)) (game_address g))
    as [hb|e]; [|discriminate].
  pose proof (calculate_max_bet_nonneg (MAX_WIN_PERCENTAGE cfg) hb seven die)
    as Hlow.
  pose proof (calculate_max_bet_flags_ceiling (MAX_WIN_PERCENTAGE cfg) hb seven die)
    as Hhigh.
  set (max_bet := calculate_max_bet (MAX_WIN_PERCENTAGE cfg) hb seven die) in *.
  destruct (tok_is_max arg).
  - fields. destruct (users w !! effective_user_id update) as [account|];
      [|discriminate].
    rewrite get_radix_balance_run.
    destruct (balance_answer _ _ _ (radix_address account)) as [ub|e];
      [|discriminate].
    destruct (Qltb _ MIN_SPIN_AMOUNT) eqn:Hmin; [discriminate|].
    intros [= <- _]. apply Qltb_false in Hmin. unfold MIN_SPIN_AMOUNT in Hmin.
    split; [lra|]. eapply Qle_trans; [apply Q.le_min_l|exact Hhigh].
  - destruct (tok_float arg) as [q|]; [|discriminate].
    destruct (Qltb q MIN_SPIN_AMOUNT) eqn:Hmin; [discriminate|].
    apply Qltb_false in Hmin. unfold MIN_SPIN_AMOUNT in Hmin.
    destruct (Qgtb q max_bet) eqn:Hover; intros [= <- _].
    + split; assumption.
    + apply Qgtb_false in Hover. split; [lra|]. eapply Qle_trans; eassumption.
Qed.

(** Every way a [/spin] request can end. *)
Lemma spin_outcomes cfg env update args (w : World) :
  let user_id := effective_user_id update in
  let w' := snd (spin cfg env update args w) in
  (forall other, other <> user_id ->
     ongoing_spins w' !! other = ongoing_spins w !! other)
  /\ ((tasks w' = tasks w
       /\ (is_ongoing (ongoing_spins w) user_id = false ->
           is_ongoing (ongoing_spins w') user_id = false))
      \/ exists amount num_spins account k balance,
           tasks w'
           = (tasks w ++ [{| pb_amount := amount; pb_user_id := user_id;
                             pb_num_spins := num_spins |}])%list
           /\ is_ongoing (ongoing_spins w') user_id = true
           /\ (1 <= num_spins <= 3)%Z
           /\ 0 <= amount <= MAX_SPIN_AMOUNT
           /\ users w !! user_id = Some account
           /\ balance_answer cfg env k (radix_address account) = Ok balance
           /\ amount * inject_Z num_spins + 0.5 <= balance).
Proof.
  intros user_id. subst user_id. unfold spin. mrun.
  assert (Hquiet : forall w2, only_replied w w2 ->
            (forall other, other <> effective_user_id update ->
               ongoing_spins w2 !! other = ongoing_spins w !! other)
            /\ ((tasks w2 = tasks w
                 /\ (is_ongoing (ongoing_spins w) (effective_user_id update) = false ->
                     is_ongoing (ongoing_spins w2) (effective_user_id update) = false))
                \/ exists amount num_spins account k balance,
                     tasks w2
                     = (tasks w ++ [{| pb_amount := amount;
                                       pb_user_id := effective_user_id update;
                                       pb_num_spins := num_spins |}])%list
                     /\ is_ongoing (ongoing_spins w2) (effective_user_id update) = true
                     /\ (1 <= num_spins <= 3)%Z
                     /\ 0 <= amount <= MAX_SPIN_AMOUNT
                     /\ users w !! effective_user_id update = Some account
                     /\ balance_answer cfg env k (radix_address account) = Ok balance
                     /\ amount * inject_Z num_spins + 0.5 <= balance)).
  { intros w2 (Ho & _ & _ & _ & _ & _ & _ & Ht). rewrite Ho.
    split; [reflexivity|]. left. split; [exact Ht|auto]. }
  destruct (check_maintenance_mode_run cfg update w) as (b1 & w1 & E1 & R1).
  rewrite E1. destruct b1; simpl; [|apply Hquiet; exact R1].
  destruct (check_chat_permissions_run cfg update w1) as (b2 & w2 & E2 & R2).
  rewrite E2. pose proof (only_replied_trans _ _ _ R1 R2) as R.
  destruct b2; simpl; [|apply Hquiet; exact R].
  destruct (is_ongoing (ongoing_spins w2) (effective_user_id update)) eqn:Hfree.
  { apply Hquiet. eapply only_replied_trans; [exact R|apply only_replied_sent]. }
  destruct args as [|arg0 more].
  { apply Hquiet. eapply only_replied_trans; [exact R|apply only_replied_sent]. }
  set (parsed := match more with [] => inl 1%Z | _ => _ end).
  assert (Hrange : forall n, parsed = inl n -> (1 <= n <= 3)%Z).
  { subst parsed. intros n. destruct more as [|arg1 rest]; [intros [= <-]; lia|].
    destruct (tok_int arg1) as [z|]; [|discriminate].
    destruct ((z <? 1)%Z || (z >? 3)%Z) eqn:Hr; [discriminate|].
    intros [= <-]. apply orb_false_iff in Hr as [H1 H3]. lia. }
  clearbody parsed. destruct parsed as [num_spins | m].
  2:{ apply Hquiet. eapply only_replied_trans; [exact R|apply only_replied_sent]. }
  specialize (Hrange num_spins eq_refl).
  destruct R as (Ho & _ & Hu & _ & _ & _ & _ & Ht).
  assert (Hcleared : forall w4 : World,
            tasks w4 = tasks w2 ->
            ongoing_spins w4
            = <[effective_user_id update := false]>
                (<[effective_user_id update := true]> (ongoing_spins w2)) ->
            (forall other, other <> effective_user_id update ->
               ongoing_spins w4 !! other = ongoing_spins w !! other)
            /\ ((tasks w4 = tasks w
                 /\ (is_ongoing (ongoing_spins w) (effective_user_id update) = false ->
                     is_ongoing (ongoing_spins w4) (effective_user_id update) = false))
                \/ exists amount num_spins account k balance,
                     tasks w4
                     = (tasks w ++ [{| pb_amount := amount;
                                       pb_user_id := effective_user_id update;
                                       pb_num_spins := num_spins |}])%list
                     /\ is_ongoing (ongoing_spins w4) (effective_user_id update) = true
                     /\ (1 <= num_spins <= 3)%Z
                     /\ 0 <= amount <= MAX_SPIN_AMOUNT
                     /\ users w !! effective_user_id update = Some account
                     /\ balance_answer cfg env k (radix_address account) = Ok balance
                     /\ amount * inject_Z num_spins + 0.5 <= balance)).
  { intros w4 Ht4 Ho4. rewrite Ho4. split.
    - intros other Hne. rewrite !lookup_insert_ne by congruence. rewrite Ho. reflexivity.
    - left. split; [congruence|]. intros _. apply is_ongoing_marked. }
  destruct (get_spin_amount_run cfg env update arg0 false false
              (set_ongoing_spins
                 (fun m => <[effective_user_id update := true]> m) w2))
    as (r & w3 & E3 & R3).
  rewrite E3. destruct R3 as (Ho3 & _ & Hu3 & _ & _ & _ & Ht3).
  fields_in Ho3. fields_in Ht3. fields_in Hu3.
  destruct r as [amount|];
    [|apply Hcleared; fields; congruence].
  pose proof (get_spin_amount_bounds _ _ _ _ _ _ _ _ _ E3) as Hamount.
  destruct (users w3 !! effective_user_id update) as [account|] eqn:Hacc;
    [|apply Hcleared; fields; congruence].
  rewrite get_radix_balance_run.
  destruct (balance_answer _ _ _ _) as [balance|e] eqn:Hbal;
    [|apply Hcleared; fields; congruence].
  destruct (Qltb balance _) eqn:Hcover; [apply Hcleared; fields; congruence|].
  fields. split.
  - intros other Hne. rewrite Ho3, lookup_insert_ne by congruence.
    rewrite Ho. reflexivity.
  - right. exists amount, num_spins, account, (length (ledger_calls w3)), balance.
    split; [rewrite Ht3, Ht; reflexivity|].
    split; [rewrite Ho3; apply is_ongoing_marked|].
    split; [exact Hrange|]. split; [exact Hamount|].
    split; [congruence|]. split; [exact Hbal|].
    apply Qltb_false in Hcover. exact Hcover.
Qed.

(** [X6] [/spin] never leaks the busy flag and never touches the flag of
    another user: a request of a user whose flag is clear that admits no
    batch leaves that flag clear, whether it ends with a message or raises. *)
Theorem spin_releases_guard (cfg : Config) (env : Env) (update : Update)
    (args : list Token) (w : World) :
  let user_id := effective_user_id update in
  let w' := snd (spin cfg env update args w) in
  (is_ongoing (ongoing_spins w) user_id = false ->
   tasks w' = tasks w ->
   is_ongoing (ongoing_spins w') user_id = false)
  /\ (forall other, other <> user_id ->
        ongoing_spins w' !! other = ongoing_spins w !! other).
Proof.
  intros user_id w'.
  destruct (spin_outcomes cfg env update args w) as [Hothers Hcases].
  split; [|exact Hothers].
  intros Hfree Hsame.
  destruct Hcases as [[_ Hclear] | (a & n & acc & k & b & Ht & _)].
  - apply Hclear, Hfree.
  - exfalso. fold w' in Ht. rewrite Hsame in Ht.
    apply (f_equal (@length PlayBatch)) in Ht.
    rewrite length_app in Ht. simpl in Ht. lia.
Qed.

Lemma spin_releases_guard_witness :
  let args := [Example.number "10" 10 None; Example.word "many"] in
  let w' := snd (spin Example.cfg Example.env_win Example.update args
                   Example.world) in
  sent w' = [MsgSpinCountInvalid]
  /\ is_ongoing (ongoing_spins w') 7 = false.
Proof.
  intros args w'. split; [vm_compute; reflexivity|].
  destruct (spin_releases_guard Example.cfg Example.env_win Example.update
              args Example.world) as [Hclear _].
  apply Hclear; vm_compute; reflexivity.
Defined.


(** ** Access control in front of [/spin] *)

(** [X8] Who may spin.  The owner passes both admission checks whatever the
    maintenance switch, the chat and the whitelist say.  For anybody else the
    request ends with one message and no other effect when the bot is in
    maintenance mode, when the chat is private, and when the command is a
    game command in the allowed group and the user is not whitelisted; a
    command that is not a game command passes in the allowed group without a
    look at the whitelist. *)
Theorem spin_access_control (cfg : Config) (env : Env) (update : Update)
    (args : list Token) (w : World) :
  let user_id := effective_user_id update in
  let w' := snd (spin cfg env update args w) in
  (user_id = GAME_OWNER_TELEGRAM_ID cfg -> admitted cfg update w)
  /\ (user_id <> GAME_OWNER_TELEGRAM_ID cfg ->
      (MAINTENANCE_MODE w = true ->
       w' = set_sent (fun l => l ++ [MsgMaintenance])%list w)
      /\ (MAINTENANCE_MODE w = false ->
          chat_type update = "private" ->
          w' = set_sent (fun l => l ++ [MsgWrongChat])%list w)
      /\ (MAINTENANCE_MODE w = false ->
          chat_type update ∈ ["group"; "supergroup"] ->
          chat_username_allowed update = true ->
          command update ∈ game_commands ->
          user_id ∉ whitelist w ->
          w' = set_sent (fun l => l ++ [MsgNotWhitelisted])%list w)
      /\ (chat_type update ∈ ["group"; "supergroup"] ->
          chat_username_allowed update = true ->
          command update ∉ game_commands ->
          check_chat_permissions cfg update w = (Ok true, w))).
Proof.
  intros user_id w'. subst user_id w'. split.
  - intros Howner. unfold admitted, check_maintenance_mode, check_chat_permissions.
    rewrite !bool_decide_eq_true_2 by exact Howner. split; reflexivity.
  - intros Hother.
    assert (Hno : bool_decide (effective_user_id update = GAME_OWNER_TELEGRAM_ID cfg)
                  = false) by (apply bool_decide_eq_false_2; exact Hother).
    assert (Hgroup : chat_type update ∈ ["group"; "supergroup"] ->
                     bool_decide (chat_type update = "private") = false).
    { intros Hin. apply bool_decide_eq_false_2. intros E. rewrite E in Hin.
      repeat (apply elem_of_cons in Hin as [Hin | Hin]; [discriminate|]).
      inversion Hin. }
    split; [|split; [|split]].
    + intros Hm. unfold spin, check_maintenance_mode. mrun.
      rewrite Hno, Hm. reflexivity.
    + intros Hm Hpriv. unfold spin, check_maintenance_mode, check_chat_permissions.
      mrun. rewrite Hno, Hm. simpl.
      rewrite bool_decide_eq_true_2 by exact Hpriv. reflexivity.
    + intros Hm Hin Hallowed Hcmd Hnw.
      unfold spin, check_maintenance_mode, check_chat_permissions, check_whitelist.
      mrun. rewrite Hno, Hm. simpl. rewrite (Hgroup Hin).
      rewrite (bool_decide_eq_true_2 _ Hin), Hallowed. simpl.
      rewrite (bool_decide_eq_true_2 _ Hcmd).
      rewrite (bool_decide_eq_false_2 _ Hnw). reflexivity.
    + intros Hin Hallowed Hcmd. unfold check_chat_permissions. mrun.
      rewrite Hno, (Hgroup Hin), (bool_decide_eq_true_2 _ Hin), Hallowed. simpl.
      rewrite (bool_decide_eq_false_2 _ Hcmd). reflexivity.
Qed.

(** ** Stakes, winnings and the house edge *)

Lemma multiplier_positive (v : Variant) : 0 < multiplier (rules_of v).
Proof. destruct v; reflexivity. Qed.

Lemma calculate_max_bet_share (pct hb : Q) (v : Variant) :
  calculate_max_bet pct hb (is_seven_spin_of v) (is_die_of v)
  <= max_win pct hb / multiplier (rules_of v).
Proof.
  unfold calculate_max_bet, max_win.
  destruct v; simpl.
  - apply Q.le_min_r.
  - eapply Qle_trans; [apply Q.le_min_l|apply Q.le_min_r].
  - apply Q.le_min_r.
Qed.

Lemma stake_times_multiplier (pct hb a : Q) (v : Variant) :
  a <= calculate_max_bet pct hb (is_seven_spin_of v) (is_die_of v) ->
  a * multiplier (rules_of v) <= max_win pct hb.
Proof.
  intros Ha. pose proof (multiplier_positive v) as Hm.
  assert (Hle : a <= max_win pct hb / multiplier (rules_of v))
    by (eapply Qle_trans; [exact Ha|apply calculate_max_bet_share]).
  apply (Qmult_le_compat_r _ _ (multiplier (rules_of v))) in Hle;
    [|apply Qlt_le_weak, Hm].
  eapply Qle_trans; [exact Hle|].
  unfold Qdiv. rewrite <- Qmult_assoc, (Qmult_comm (/ _)), Qmult_inv_r.
  - rewrite Qmult_1_r. apply Qle_refl.
  - intros E. rewrite E in Hm. discriminate.
Qed.

Lemma gross_winnings_le (a m cap : Q) (outcomes : list bool) :
  0 <= cap -> a * m <= cap ->
  gross_winnings a m outcomes <= inject_Z (Z.of_nat (length outcomes)) * cap.
Proof.
  intros Hcap Hone. induction outcomes as [|won rest IH].
  - cbn [gross_winnings length]. change (inject_Z (Z.of_nat 0)) with 0. lra.
  - cbn [gross_winnings length]. rewrite Nat2Z.inj_succ. unfold Z.succ.
    rewrite inject_Z_plus. change (inject_Z 1) with 1.
    set (n := inject_Z (Z.of_nat (length rest))) in *. clearbody n.
    set (g := gross_winnings a m rest) in *. clearbody g.
    assert (E : (n + 1) * cap == n * cap + cap) by ring. rewrite E.
    set (x := a * m) in *. set (y := n * cap) in *. clearbody x y.
    destruct won; lra.
Qed.

(** [X9] The validator and the payout rules agree.  An amount within the
    maximum bet of a variant wins, on one play, at most the maximal win the
    validator works with (the configured share of the house balance); a batch
    wins at most that much for each of its dice. *)
Theorem winnings_within_max_win (pct hb amount : Q) (v : Variant)
    (num_spins : Z) (dice_values : list Z) :
  amount <= calculate_max_bet pct hb (is_seven_spin_of v) (is_die_of v) ->
  amount * multiplier (rules_of v) <= max_win pct hb
  /\ total_winnings (settle (rules_of v) amount num_spins dice_values)
     <= inject_Z (Z.of_nat (length dice_values)) * max_win pct hb.
Proof.
  intros Ha. pose proof (stake_times_multiplier pct hb amount v Ha) as Hone.
  split; [exact Hone|].
  assert (Hcap : 0 <= max_win pct hb) by apply Q.le_max_l.
  unfold settle.
  pose proof (process_results_winnings (rules_of v) amount dice_values
                0%Z ([], 0)) as Hw.
  destruct (process_results (rules_of v) amount 0 dice_values ([], 0))
    as [winning winnings].
  simpl in *. rewrite Hw, Qplus_0_l.
  rewrite <- (length_map (is_win (rules_of v)) dice_values).
  apply gross_winnings_le; assumption.
Qed.

Lemma winnings_within_max_win_witness :
  100 * multiplier (rules_of Standard) <= max_win 5 24000
  /\ total_winnings (settle (rules_of Standard) 100 3 [1; 22; 5]%Z)
     <= inject_Z (Z.of_nat 3) * max_win 5 24000.
Proof.
  apply (winnings_within_max_win 5 24000 100 Standard 3 [1; 22; 5]%Z).
  vm_compute. discriminate.
Defined.

Lemma process_results_positions (r : GameRules) (a : Q) (dice_values : list Z) :
  forall (i : Z) (acc : list Z * Q) (p : Z),
    p ∈ fst (process_results r a i dice_values acc)
    <-> p ∈ fst acc
        \/ exists (k : nat) (d : Z),
             dice_values !! k = Some d /\ is_win r d = true
             /\ p = (i + Z.of_nat k + 1)%Z.
Proof.
  induction dice_values as [|d rest IH]; intros i acc p; simpl.
  - split; [auto|]. intros [H | (k & d & Hk & _)]; [exact H|].
    rewrite lookup_nil in Hk. discriminate.
  - rewrite IH. split.
    + intros [Hacc | (k & d' & Hk & Hw & Hp)].
      * destruct (is_win r d) eqn:Hd; [|left; exact Hacc].
        simpl in Hacc. apply elem_of_app in Hacc as [Hacc | Hnew];
          [left; exact Hacc|].
        apply list_elem_of_singleton in Hnew. right. exists 0%nat, d.
        split; [reflexivity|]. split; [exact Hd|]. lia.
      * right. exists (S k), d'. split; [exact Hk|]. split; [exact Hw|]. lia.
    + intros [Hacc | (k & d' & Hk & Hw & Hp)].
      * left. destruct (is_win r d); [|exact Hacc].
        simpl. apply elem_of_app. left. exact Hacc.
      * destruct k as [|k].
        -- simpl in Hk. injection Hk as <-. left. rewrite Hw. simpl.
           apply elem_of_app. right. apply list_elem_of_singleton. lia.
        -- right. exists k, d'. split; [exact Hk|]. split; [exact Hw|]. lia.
Qed.

Lemma gross_winnings_nonneg (a m : Q) (outcomes : list bool) :
  0 <= a -> 0 <= m -> 0 <= gross_winnings a m outcomes.
Proof.
  intros Ha Hm. induction outcomes as [|won rest IH]; simpl; [lra|].
  pose proof (Qmult_le_0_compat a m Ha Hm). destruct won; lra.
Qed.

(** [X10] What a settlement reports.  The winning spins are exactly the
    positions, counted from 1, of the dice that win; and for an amount that is
    not negative the winnings are not negative, so that a player never owes
    more than the total cost of the batch. *)
Theorem settle_reports (v : Variant) (amount : Q) (num_spins : Z)
    (dice_values : list Z) :
  let s := settle (rules_of v) amount num_spins dice_values in
  (forall p : Z,
     p ∈ winning_spins s
     <-> exists (k : nat) (d : Z),
           dice_values !! k = Some d /\ is_win (rules_of v) d = true
           /\ p = (Z.of_nat k + 1)%Z)
  /\ (0 <= amount ->
      0 <= total_winnings s
      /\ - total_cost s <= net_result s
      /\ (net_result s < 0 -> Qabs (net_result s) <= amount * inject_Z num_spins)).
Proof.
  intros s. subst s. unfold settle.
  pose proof (process_results_positions (rules_of v) amount dice_values
                0%Z ([], 0)) as Hpos.
  pose proof (process_results_winnings (rules_of v) amount dice_values
                0%Z ([], 0)) as Hw.
  destruct (process_results (rules_of v) amount 0 dice_values ([], 0))
    as [winning winnings].
  cbn [fst snd winning_spins total_winnings total_cost net_result] in *.
  split.
  - intros p. rewrite Hpos. split.
    + intros [Hnil | H]; [inversion Hnil|exact H].
    + intros H. right. exact H.
  - intros Ha.
    assert (Hge : 0 <= winnings).
    { rewrite Hw, Qplus_0_l. apply gross_winnings_nonneg; [exact Ha|].
      apply Qlt_le_weak, multiplier_positive. }
    split; [exact Hge|]. split; [lra|].
    intros Hneg. rewrite Qabs_neg by lra. lra.
Qed.

Lemma settle_reports_witness :
  let s := settle (rules_of Standard) 10 3 [2; 22; 64]%Z in
  0 <= total_winnings s /\ - total_cost s <= net_result s
  /\ winning_spins s = [2; 3]%Z.
Proof.
  intros s.
  destruct (settle_reports Standard 10 3 [2; 22; 64]%Z) as [_ Hbounds].
  destruct Hbounds as (H1 & H2 & _); [vm_compute; discriminate|].
  split; [exact H1|]. split; [exact H2|]. reflexivity.
Defined.

Lemma single_play_net (r : GameRules) (a : Q) (d : Z) :
  net_result (settle r a 1 [d])
  == (if is_win r d then a * multiplier r else 0) - a.
Proof.
  unfold settle. simpl. destruct (is_win r d); simpl; ring.
Qed.

Lemma total_net_sum (v : Variant) (a : Q) (faces : list Z) :
  total_net v a faces
  == a * multiplier (rules_of v)
       * inject_Z (Z.of_nat (length (List.filter (is_win (rules_of v)) faces)))
     - a * inject_Z (Z.of_nat (length faces)).
Proof.
  induction faces as [|d rest IH].
  - cbn [total_net List.filter length]. change (inject_Z (Z.of_nat 0)) with 0. ring.
  - cbn [total_net List.filter length]. rewrite IH, single_play_net.
    destruct (is_win (rules_of v) d); cbn [length];
      rewrite !Nat2Z.inj_succ; unfold Z.succ; rewrite !inject_Z_plus;
      change (inject_Z 1) with 1; ring.
Qed.

Lemma is_win_winning_values (v : Variant) (d : Z) :
  is_win (rules_of v) d = true -> In d (winning_values v).
Proof.
  destruct v; simpl; intros H;
    repeat (apply orb_true_iff in H as [H | H]);
    apply Z.eqb_eq in H; subst; simpl; auto.
Qed.

Lemma winning_faces_bound (v : Variant) (faces : list Z) :
  List.NoDup faces ->
  (length (List.filter (is_win (rules_of v)) faces)
   <= length (winning_values v))%nat.
Proof.
  intros Hnd. apply List.NoDup_incl_length.
  - apply List.NoDup_filter, Hnd.
  - intros d Hd. apply List.filter_In in Hd as [_ Hw].
    apply is_win_winning_values, Hw.
Qed.

(** [X11] The house edge.  On a dice whose faces are all different, the net
    results of one play of a positive amount, added up over the faces, are
    negative as soon as the dice has more than 48 faces for the two slot
    variants and more than 5 for the die: the multiplier times the number of
    winning values stays below the number of faces. *)
Theorem house_edge (v : Variant) (amount : Q) (faces : list Z) :
  0 < amount ->
  List.NoDup faces ->
  (break_even_faces v < length faces)%nat ->
  total_net v amount faces < 0.
Proof.
  intros Ha Hnd Hmany. rewrite total_net_sum.
  pose proof (winning_faces_bound v faces Hnd) as Hwins.
  set (wins := length (List.filter (is_win (rules_of v)) faces)) in *.
  assert (Hq : inject_Z (Z.of_nat wins)
               <= inject_Z (Z.of_nat (length (winning_values v)))).
  { rewrite <- Zle_Qle. lia. }
  assert (Hf : inject_Z (Z.of_nat (break_even_faces v)) + 1
               <= inject_Z (Z.of_nat (length faces))).
  { change 1 with (inject_Z 1). rewrite <- inject_Z_plus, <- Zle_Qle. lia. }
  assert (Hbe : multiplier (rules_of v)
                  * inject_Z (Z.of_nat (length (winning_values v)))
                == inject_Z (Z.of_nat (break_even_faces v)))
    by (destruct v; reflexivity).
  set (n := inject_Z (Z.of_nat (length faces))) in *. clearbody n.
  set (k := inject_Z (Z.of_nat wins)) in *. clearbody k.
  set (k0 := inject_Z (Z.of_nat (length (winning_values v)))) in *. clearbody k0.
  set (b := inject_Z (Z.of_nat (break_even_faces v))) in *. clearbody b.
  pose proof (multiplier_positive v) as Hm.
  set (m := multiplier (rules_of v)) in *. clearbody m.
  assert (Hmk : m * k <= b).
  { rewrite <- Hbe. apply Qmult_le_l; assumption. }
  assert (E : amount * m * k - amount * n == amount * (m * k - n)) by ring.
  rewrite E. clear E.
  assert (Hneg : m * k - n < 0) by lra.
  set (x := m * k - n) in *. clearbody x. nra.
Qed.

Lemma house_edge_witness :
  total_net Die 10 [1; 2; 3; 4; 5; 6]%Z < 0
  /\ total_net Die 10 [1; 2; 3; 4; 5; 6]%Z == -10.
Proof.
  split; [|vm_compute; reflexivity].
  apply house_edge.
  - reflexivity.
  - repeat (constructor; [simpl; intuition discriminate|]). constructor.
  - simpl. lia.
Defined.

(** ** More on withdrawals *)


(** [X13] A withdrawal asked for while a play of the user is in flight is
    turned away with a message: no ledger call is made and nothing else
    changes. *)
Theorem withdraw_while_busy (cfg : Config) (env : Env) (update : Update)
    (args : list Token) (w : World) :
  is_ongoing (ongoing_spins w) (effective_user_id update) = true ->
  only_replied w (snd (withdraw cfg env update args w)).
Proof.
  intros Hbusy. unfold withdraw. mrun.
  destruct (check_maintenance_mode_run cfg update w) as (b1 & w1 & E1 & R1).
  rewrite E1. destruct b1; simpl; [|exact R1].
  destruct (check_chat_permissions_run cfg update w1) as (b2 & w2 & E2 & R2).
  rewrite E2. pose proof (only_replied_trans _ _ _ R1 R2) as R.
  destruct b2; simpl; [|exact R].
  pose proof R as (Ho & _). rewrite Ho, Hbusy. fields.
  eapply only_replied_trans; [exact R|apply only_replied_sent].
Qed.

Lemma withdraw_while_busy_witness :
  let w1 := snd (mark_ongoing 7 true Example.world) in
  let w' := snd (withdraw Example.cfg Example.env_win Example.withdraw_update
                   [Example.word "account_bob"] w1) in
  only_replied w1 w' /\ sent w' = [MsgWithdrawInProgress].
Proof.
  intros w1 w'. split; [|vm_compute; reflexivity].
  apply withdraw_while_busy. vm_compute. reflexivity.
Defined.

(** [X14] A withdrawal without an amount takes the whole balance: when the
    balance read is above 1.01 and the submission is confirmed, the manifest
    withdraws [balance - 1.000001] and that is the amount recorded and
    reported. *)
Theorem withdraw_all (cfg : Config) (env : Env) (update : Update)
    (arg0 : Token) (w : World) (account : Account) (balance : Q) :
  admitted cfg update w ->
  is_ongoing (ongoing_spins w) (effective_user_id update) = false ->
  users w !! effective_user_id update = Some account ->
  balance_answer cfg env (length (ledger_calls w)) (radix_address account)
  = Ok balance ->
  1.01 < balance ->
  res_status (submit_answer cfg env (S (length (ledger_calls w))))
  = Some "CommittedSuccess" ->
  let w' := snd (withdraw cfg env update [arg0] w) in
  let address := radix_address account in
  let m := withdraw_tokens_manifest address (tok_text arg0) balance in
  submissions (ledger_calls w')
  = (submissions (ledger_calls w)
     ++ [SubmitTransaction m address (private_key account)
           (public_key account)])%list
  /\ withdrawals m = [(address, balance - 1.000001)]
  /\ transactions w'
     = (transactions w
        ++ [{| tr_telegram_id := effective_user_id update;
               tr_action := "withdraw";
               tr_amount := balance - 1.000001 |}])%list
  /\ exists transaction_id,
       sent w'
       = (sent w
          ++ [MsgWithdrawSuccess (balance - 1.000001) (tok_text arg0) 1.000001
                transaction_id])%list.
Proof.
  intros [Hgate1 Hgate2] Hfree Hu Hb Hlow Hok.
  unfold withdraw. mrun. rewrite Hgate1. simpl. rewrite Hgate2. simpl.
  rewrite Hfree, Hu, get_radix_balance_run, Hb. simpl.
  assert (Hgt : Qgtb balance balance = false) by (apply Qgtb_false; lra).
  assert (Hmin : Qle_bool balance 1.01 = false)
    by (apply Qle_bool_false; exact Hlow).
  rewrite Hgt, Hmin, submit_transaction_run, length_traced.
  rewrite (submit_answer_status_no_error _ _ _ _ Hok), Hok. simpl.
  rewrite orb_true_r. fields.
  split; [rewrite !submissions_app; simpl; rewrite app_nil_r; reflexivity|].
  split; [reflexivity|]. split; [reflexivity|]. eexists. reflexivity.
Qed.

Lemma withdraw_all_witness :
  let w' := snd (withdraw Example.cfg Example.env_win Example.withdraw_update
                   [Example.word "account_bob"] Example.world) in
  transactions w'
  = [{| tr_telegram_id := 7; tr_action := "withdraw";
        tr_amount := 500 - 1.000001 |}].
Proof.
  intros w'.
  destruct (withdraw_all Example.cfg Example.env_win Example.withdraw_update
              (Example.word "account_bob") Example.world Example.alice 500)
    as (_ & _ & Htx & _).
  - split; reflexivity.
  - reflexivity.
  - reflexivity.
  - reflexivity.
  - vm_compute. reflexivity.
  - reflexivity.
  - exact Htx.
Defined.

(** ** Manifests *)

(** [X15] The payout of [send_winnings_manifest] is the winnings less 0.5 and
    never negative: winnings of at most 0.5 pay nothing.  The manifest is one
    transfer of that payout from the game account, which locks the fee, to
    the player; [claim_winnings_manifest] builds the same manifest from its
    parameters in the other order. *)
Theorem send_winnings_payout (game_address player_address : string)
    (winnings_amount : Q) :
  let m := send_winnings_manifest game_address player_address winnings_amount in
  exists payout,
    single_transfer m game_address player_address payout
    /\ worktop_takes m = [Some payout]
    /\ 0 <= payout
    /\ (0.5 <= winnings_amount -> payout == winnings_amount - 0.5)
    /\ (winnings_amount <= 0.5 -> payout == 0)
    /\ claim_winnings_manifest player_address game_address winnings_amount = m.
Proof.
  exists (Qmax 0 (winnings_amount - 0.5)).
  split; [repeat split; left; reflexivity|].
  split; [reflexivity|]. split; [apply Q.le_max_l|].
  split; [|split; [|reflexivity]]; intros H;
    destruct (Q.max_spec 0 (winnings_amount - 0.5)) as [[? E] | [? E]];
    rewrite E; lra.
Qed.

(** [X16] Every manifest the ledger client builds is a single transfer in
    which the account that pays also locks the fee: the settlement of a
    positive net result pays from the game account to the player, any other
    net result pays its absolute value from the player to the game account;
    a spin pays [spin_amount * num_spins] and a voucher purchase
    [voucher_cost * voucher_amount] from the player to the game account; a
    withdrawal pays [amount - 1.000001] to the destination. *)
Theorem manifests_are_single_transfers (game_address player_address
    destination_address : string) (x : Q) (n : Z) :
  (0 < x ->
   single_transfer (settle_spin_manifest game_address player_address x)
     game_address player_address x)
  /\ (x <= 0 ->
      single_transfer (settle_spin_manifest game_address player_address x)
        player_address game_address (Qabs x))
  /\ single_transfer (spin_manifest player_address game_address x n)
       player_address game_address (x * inject_Z n)
  /\ single_transfer (buy_vouchers_manifest player_address game_address x n)
       player_address game_address (x * inject_Z n)
  /\ single_transfer
       (withdraw_tokens_manifest player_address destination_address x)
       player_address destination_address (x - 1.000001).
Proof.
  split; [|split; [|split; [|split]]].
  - intros Hpos. unfold settle_spin_manifest.
    rewrite (proj2 (Qgtb_true x 0) Hpos). repeat split. left. reflexivity.
  - intros Hneg. unfold settle_spin_manifest.
    rewrite (proj2 (Qgtb_false x 0) Hneg). repeat split. left. reflexivity.
  - repeat split. left. reflexivity.
  - repeat split. left. reflexivity.
  - repeat split. right. reflexivity.
Qed.

(** ** Sending winnings with retries *)

Lemma traced_times_succ (c : LedgerCall) (k : nat) (w : World) :
  traced_times c k (traced c w) = traced_times c (S k) w.
Proof.
  unfold traced_times, traced, set_ledger_calls. simpl.
  rewrite <- app_assoc. reflexivity.
Qed.

Lemma length_traced_times (c : LedgerCall) (k : nat) (w : World) :
  length (ledger_calls (traced_times c k w))
  = (length (ledger_calls w) + k)%nat.
Proof.
  unfold traced_times. fields. rewrite length_app, repeat_length. reflexivity.
Qed.

Lemma send_winnings_attempts_run cfg env ga gk gp pa (amount : Q)
    (max_retries : Z) :
  forall (remaining : nat) (attempt : Z) (w : World),
    (attempt + Z.of_nat remaining = max_retries)%Z ->
    let call := SubmitTransaction (send_winnings_manifest ga pa amount)
                  ga gk gp in
    let n := length (ledger_calls w) in
    exists (k : nat) (result : SubmitResult),
      send_winnings_attempts cfg env ga gk gp pa amount max_retries
        remaining attempt w
      = (Ok result, traced_times call k w)
      /\ (k <= remaining)%nat
      /\ (forall j, (S j < k)%nat -> attempt_succeeds cfg env (n + j) = false)
      /\ ((res_error result = None
           /\ (0 < k)%nat
           /\ attempt_succeeds cfg env (n + k - 1) = true
           /\ result = submit_answer cfg env (n + k - 1))
          \/ ((exists e, res_error result = Some e)
              /\ k = remaining
              /\ forall j, (j < k)%nat -> attempt_succeeds cfg env (n + j) = false)).
Proof.
  induction remaining as [|r IH]; intros attempt w Hinv call n.
  - exists 0%nat. eexists. split.
    + simpl. unfold mret, M_ret. f_equal. destruct w.
      unfold traced_times, set_ledger_calls. simpl. rewrite app_nil_r.
      reflexivity.
    + split; [lia|]. split; [intros j Hj; lia|]. right.
      split; [eexists; reflexivity|]. split; [reflexivity|]. intros j Hj; lia.
  - cbn [send_winnings_attempts]. mrun. rewrite submit_transaction_run.
    fold call. fold n.
    assert (Hlast : (attempt <? max_retries - 1)%Z = true <-> (0 < r)%nat).
    { rewrite Z.ltb_lt. lia. }
    assert (Hnext : (0 < r)%nat ->
              exists (k : nat) (result : SubmitResult),
                send_winnings_attempts cfg env ga gk gp pa amount max_retries
                  r (attempt + 1) (traced call w)
                = (Ok result, traced_times call (S k) w)
                /\ (S k <= S r)%nat
                /\ (attempt_succeeds cfg env n = false ->
                    (forall j, (S j < S k)%nat ->
                       attempt_succeeds cfg env (n + j) = false)
                    /\ ((res_error result = None
                         /\ (0 < S k)%nat
                         /\ attempt_succeeds cfg env (n + S k - 1) = true
                         /\ result = submit_answer cfg env (n + S k - 1))
                        \/ ((exists e, res_error result = Some e)
                            /\ S k = S r
                            /\ forall j, (j < S k)%nat ->
                                 attempt_succeeds cfg env (n + j) = false)))).
    { intros Hr.
      destruct (IH (attempt + 1)%Z (traced call w) ltac:(lia))
        as (k & result & Hrun & Hk & Hbefore & Hcases).
      rewrite length_traced in Hbefore, Hcases. fold n in Hbefore, Hcases.
      exists k, result. rewrite Hrun, traced_times_succ.
      split; [reflexivity|]. split; [lia|]. intros Hfail. split.
      - intros j Hj. destruct j as [|j]; [rewrite Nat.add_0_r; exact Hfail|].
        replace (n + S j)%nat with (S n + j)%nat by lia. apply Hbefore. lia.
      - destruct Hcases as [(He & Hpos & Hs & Hres) | (He & Hall & Hnone)].
        + left. split; [exact He|]. split; [lia|].
          replace (n + S k - 1)%nat with (S n + k - 1)%nat by lia.
          split; assumption.
        + right. split; [exact He|]. split; [lia|].
          intros j Hj. destruct j as [|j]; [rewrite Nat.add_0_r; exact Hfail|].
          replace (n + S j)%nat with (S n + j)%nat by lia. apply Hnone. lia. }
    assert (Hone : traced call w = traced_times call 1 w) by reflexivity.
    unfold attempt_succeeds at 1 in Hnext.
    destruct (res_error (submit_answer cfg env n)) as [e|] eqn:Herr.
    + destruct (attempt <? max_retries - 1)%Z eqn:Hlt.
      * destruct (Hnext (proj1 Hlast eq_refl)) as (k & result & Hrun & Hk & Hrest).
        exists (S k), result. rewrite Hrun. split; [reflexivity|].
        split; [exact Hk|]. apply Hrest. reflexivity.
      * assert (r = 0%nat) by (apply Z.ltb_ge in Hlt; lia). subst r.
        exists 1%nat, (submit_answer cfg env n). rewrite Hone.
        split; [reflexivity|]. split; [lia|].
        split; [intros j Hj; lia|]. right.
        split; [exists e; exact Herr|]. split; [reflexivity|].
        intros j Hj. assert (j = 0%nat) by lia. subst j.
        rewrite Nat.add_0_r. unfold attempt_succeeds. rewrite Herr. reflexivity.
    + destruct (SIMULATION_MODE cfg || bool_decide _) eqn:Hok.
      * exists 1%nat, (submit_answer cfg env n). rewrite Hone.
        split; [reflexivity|]. split; [lia|].
        split; [intros j Hj; lia|]. left.
        split; [exact Herr|]. split; [lia|].
        replace (n + 1 - 1)%nat with n by lia.
        split; [|reflexivity]. unfold attempt_succeeds. rewrite Herr. exact Hok.
      * destruct (attempt <? max_retries - 1)%Z eqn:Hlt.
        -- destruct (Hnext (proj1 Hlast eq_refl))
             as (k & result & Hrun & Hk & Hrest).
           exists (S k), result. rewrite Hrun. split; [reflexivity|].
           split; [exact Hk|]. apply Hrest. reflexivity.
        -- assert (r = 0%nat) by (apply Z.ltb_ge in Hlt; lia). subst r.
           exists 1%nat. eexists. rewrite Hone.
           split; [reflexivity|]. split; [lia|].
           split; [intros j Hj; lia|]. right.
           split; [eexists; reflexivity|]. split; [reflexivity|].
           intros j Hj. assert (j = 0%nat) by lia. subst j.
           rewrite Nat.add_0_r. unfold attempt_succeeds. rewrite Herr. exact Hok.
Qed.

(** [X17] [send_winnings_with_retry] never raises and submits the same
    manifest with the game's keys [k] times, [k] at most [max_retries].  It
    stops at the first submission that comes back without "error" and, outside
    simulation, with status "CommittedSuccess", and returns that result; any
    other status, "Unknown" included, counts as a failed attempt.  When no
    attempt succeeds it has made all [max_retries] submissions and returns a
    dictionary with the key "error". *)
Theorem send_winnings_with_retry_spec (cfg : Config) (env : Env)
    (game_address game_private_key game_public_key player_address : string)
    (winnings_amount : Q) (max_retries : Z) (w : World) :
  let call :=
    SubmitTransaction
      (send_winnings_manifest game_address player_address winnings_amount)
      game_address game_private_key game_public_key in
  let n := length (ledger_calls w) in
  exists (k : nat) (result : SubmitResult),
    send_winnings_with_retry cfg env game_address game_private_key
      game_public_key player_address winnings_amount max_retries w
    = (Ok result, traced_times call k w)
    /\ (k <= Z.to_nat max_retries)%nat
    /\ (forall j, (S j < k)%nat -> attempt_succeeds cfg env (n + j) = false)
    /\ ((res_error result = None
         /\ (0 < k)%nat
         /\ attempt_succeeds cfg env (n + k - 1) = true
         /\ result = submit_answer cfg env (n + k - 1))
        \/ ((exists e, res_error result = Some e)
            /\ k = Z.to_nat max_retries
            /\ forall j, (j < k)%nat -> attempt_succeeds cfg env (n + j) = false)).
Proof.
  intros call n. unfold send_winnings_with_retry.
  destruct (Z_le_gt_dec 0 max_retries) as [Hpos | Hneg].
  - apply send_winnings_attempts_run. lia.
  - replace (Z.to_nat max_retries) with 0%nat by lia.
    exists 0%nat. eexists. split.
    + simpl. unfold mret, M_ret. f_equal. destruct w.
      unfold traced_times, set_ledger_calls. simpl. rewrite app_nil_r.
      reflexivity.
    + split; [lia|]. split; [intros j Hj; lia|]. right.
      split; [eexists; reflexivity|]. split; [reflexivity|]. intros j Hj; lia.
Qed.

(** A payout whose submission stays pending through the polls of all three
    attempts ends with an error after three submissions. *)
Example send_winnings_with_retry_pending :
  let run := send_winnings_with_retry Example.cfg Example.env_unknown
               "account_house" "private_house" "public_house"
               "account_alice" 110 3 Example.world in
  length (ledger_calls (snd run)) = 3%nat
  /\ fst run
     = Ok {| res_error :=
               Some "Transaction failed after 3 attempts with status: Unknown";
             res_transaction_id := None; res_status := None;
             res_error_message := None |}.
Proof. vm_compute. split; reflexivity. Qed.

(** [X18] Outside simulation, [verify_payment_received] answers true exactly
    when the first final answer among the first ten status polls is
    "CommittedSuccess"; a failure, a rejection and a time-out all answer
    false, and neither the game address nor the expected amount is looked
    at. *)
Theorem verify_payment_received_spec (game_address : string)
    (expected_amount : Q) (polls : nat -> PollResponse) :
  (verify_payment_received false game_address expected_amount polls = true
   <-> exists k em,
         (k < 10)%nat
         /\ polls k = PollJson (Some "CommittedSuccess") em
         /\ forall j, (j < k)%nat -> poll_is_final (polls j) = false)
  /\ (forall (a : string) (q : Q),
        verify_payment_received false a q polls
        = verify_payment_received false game_address expected_amount polls)
  /\ (forall (a : string) (q : Q) (p : nat -> PollResponse),
        verify_payment_received true a q p = true).
Proof.
  split; [|split; reflexivity].
  unfold verify_payment_received, check_transaction_status.
  rewrite bool_decide_eq_true.
  destruct (poll_status_spec polls 10 0)
    as [(k & st & em & Hk & Hp & Hf & Hbefore & Hr) | [Hnone Hr]];
    rewrite Hr; simpl in *.
  - split.
    + intros [= ->]. exists k, em. auto.
    + intros (k' & em' & Hk' & Hp' & Hbefore').
      destruct (Nat.lt_trichotomy k k') as [Hlt | [Heq | Hgt]].
      * specialize (Hbefore' k Hlt). rewrite Hp in Hbefore'. simpl in Hbefore'.
        congruence.
      * subst k'. rewrite Hp in Hp'. congruence.
      * specialize (Hbefore k' Hgt). rewrite Hp' in Hbefore. discriminate.
  - split; [discriminate|].
    intros (k' & em' & Hk' & Hp' & _). specialize (Hnone k' Hk').
    rewrite Hp' in Hnone. discriminate.
Qed.

(** ** Escaping *)

Lemma backslash_not_special : "\"%char ∉ special_chars.
Proof. apply (bool_decide_unpack _). vm_compute. exact I. Qed.

(** An escaped text never starts with a special character. *)
Lemma escape_markdown_v2_head (text : string) (d : ascii) (rest : string) :
  escape_markdown_v2 text = String d rest -> d ∉ special_chars.
Proof.
  destruct text as [|c text']; simpl; [discriminate|].
  destruct (bool_decide (c ∈ special_chars)) eqn:Hc.
  - intros [= <- _]. apply backslash_not_special.
  - intros [= <- _]. apply bool_decide_eq_false in Hc. exact Hc.
Qed.

Lemma escape_markdown_v2_app (a b : string) :
  escape_markdown_v2 (a +:+ b) = escape_markdown_v2 a +:+ escape_markdown_v2 b.
Proof.
  induction a as [|c a IH]; simpl; [reflexivity|].
  rewrite IH. destruct (bool_decide (c ∈ special_chars)); reflexivity.
Qed.

Lemma unescape_markdown_v2_cons (c d : ascii) (rest : string) :
  unescape_markdown_v2 (String c (String d rest))
  = if bool_decide (c = "\"%char) && bool_decide (d ∈ special_chars)
    then String d (unescape_markdown_v2 rest)
    else String c (unescape_markdown_v2 (String d rest)).
Proof. reflexivity. Qed.

Lemma unescape_escape (text : string) :
  unescape_markdown_v2 (escape_markdown_v2 text) = text.
Proof.
  induction text as [|c text IH]; [reflexivity|].
  cbn [escape_markdown_v2].
  destruct (bool_decide (c ∈ special_chars)) eqn:Hc.
  - rewrite unescape_markdown_v2_cons, Hc.
    rewrite bool_decide_eq_true_2 by reflexivity. simpl. rewrite IH. reflexivity.
  - destruct (escape_markdown_v2 text) as [|d rest] eqn:E.
    + destruct text as [|c' text']; [reflexivity|].
      simpl in E. destruct (bool_decide (c' ∈ special_chars)); discriminate.
    + pose proof (escape_markdown_v2_head text d rest E) as Hd.
      rewrite unescape_markdown_v2_cons.
      rewrite (bool_decide_eq_false_2 _ Hd), andb_false_r, IH. reflexivity.
Qed.

(** [X19] [escape_markdown_v2] loses nothing: dropping the backslashes that
    stand in front of special characters gives the text back, so different
    texts have different escapings; escaping goes through concatenation; and
    a text without special characters is left as it is. *)
Theorem escape_markdown_v2_round_trip (text other : string) :
  unescape_markdown_v2 (escape_markdown_v2 text) = text
  /\ (escape_markdown_v2 text = escape_markdown_v2 other -> text = other)
  /\ escape_markdown_v2 (text +:+ other)
     = escape_markdown_v2 text +:+ escape_markdown_v2 other
  /\ ((forall c, c ∈ String.list_ascii_of_string text -> c ∉ special_chars) ->
      escape_markdown_v2 text = text).
Proof.
  split; [apply unescape_escape|]. split; [|split].
  - intros E. rewrite <- (unescape_escape text), <- (unescape_escape other), E.
    reflexivity.
  - apply escape_markdown_v2_app.
  - induction text as [|c text IH]; intros Hplain; [reflexivity|].
    simpl. rewrite bool_decide_eq_false_2.
    + rewrite IH; [reflexivity|]. intros c' Hc'. apply Hplain. simpl.
      apply elem_of_cons. right. exact Hc'.
    + apply Hplain. simpl. apply elem_of_cons. left. reflexivity.
Qed.

Lemma escape_markdown_v2_round_trip_witness :
  escape_markdown_v2 "12.50" = "12\.50"
  /\ (escape_markdown_v2 "ok" = "ok").
Proof.
  split; [reflexivity|].
  apply (escape_markdown_v2_round_trip "ok" "").
  intros c Hc. simpl in Hc.
  repeat (apply elem_of_cons in Hc as [-> | Hc];
          [apply (bool_decide_unpack _); vm_compute; exact I|]).
  inversion Hc.
Defined.

(** ** The maintenance switch *)


(** [X20] [toggle_migrate] belongs to the owner: a request of anybody else
    leaves the world as it is.  A request of the owner flips the maintenance
    switch, so that two requests in a row restore the world; and once the
    switch is on, the maintenance check turns away every update that does not
    come from the owner. *)
Theorem toggle_migrate_switch (cfg : Config) (update : Update) (b : Bot) :
  let user_id := effective_user_id update in
  let b1 := snd (toggle_migrate cfg update b) in
  (user_id <> GAME_OWNER_TELEGRAM_ID cfg -> bot_world b1 = bot_world b)
  /\ (user_id = GAME_OWNER_TELEGRAM_ID cfg ->
      MAINTENANCE_MODE (bot_world b1) = negb (MAINTENANCE_MODE (bot_world b))
      /\ bot_world (snd (toggle_migrate cfg update b1)) = bot_world b
      /\ (MAINTENANCE_MODE (bot_world b) = false ->
          forall other : Update,
            effective_user_id other <> GAME_OWNER_TELEGRAM_ID cfg ->
            fst (check_maintenance_mode cfg other (bot_world b1)) = Ok false)).
Proof.
  intros user_id b1. subst user_id b1. destruct b as [w notices spawned].
  unfold toggle_migrate. split.
  - intros Hother. rewrite (bool_decide_eq_false_2 _ Hother). reflexivity.
  - intros Howner. rewrite (bool_decide_eq_true_2 _ Howner). brun. bfields.
    split; [reflexivity|]. split.
    + destruct w. unfold set_maintenance_mode. simpl.
      rewrite negb_involutive. reflexivity.
    + intros Hoff other Hother. cbn [bot_world] in Hoff.
      unfold check_maintenance_mode. mrun.
      rewrite (bool_decide_eq_false_2 _ Hother). bfields. rewrite Hoff.
      reflexivity.
Qed.

(** ** The whitelist *)

Lemma whitelist_filter_spec (target x : Z) (l : list Z) :
  x ∈ List.filter (fun y => negb (bool_decide (y = target))) l
  <-> x ∈ l /\ x <> target.
Proof.
  rewrite !list_elem_of_In, List.filter_In, negb_true_iff.
  rewrite bool_decide_eq_false. reflexivity.
Qed.



(** ** The maximum bets shown to the user *)

Lemma sevens_cap_order (x : Q) :
  Qmin (MAX_SPIN_AMOUNT / 4) x == Qmin (Qmin MAX_SPIN_AMOUNT x) (MAX_SPIN_AMOUNT / 4).
Proof.
  assert (Hc : MAX_SPIN_AMOUNT / 4 < MAX_SPIN_AMOUNT) by reflexivity.
  set (c := MAX_SPIN_AMOUNT) in *. set (q := c / 4) in *. clearbody q c.
  destruct (Q.min_spec q x) as [[? E1] | [? E1]];
    destruct (Q.min_spec c x) as [[? E2] | [? E2]];
    destruct (Q.min_spec (Qmin c x) q) as [[? E3] | [? E3]];
    rewrite E1, E3; rewrite E2 in *; lra.
Qed.

(** [X22] The maximum bets that [max_bet] shows are those the validator
    enforces.  Once both admission checks are passed and the house balance is
    read, the one message sent carries, for each variant, the value of
    [calculate_max_bet] at that balance, although the command computes the
    sevens-only bound with the cap in the other position; the three maximal
    wins shown are the validator's maximal win. *)
Theorem max_bet_shows_validator_bounds (cfg : Config) (env : Env)
    (update : Update) (b : Bot) (g : GameStats) (hb : Q) :
  admitted cfg update (bot_world b) ->
  game_stats (bot_world b) = Some g ->
  balance_answer cfg env (length (ledger_calls (bot_world b))) (game_address g)
  = Ok hb ->
  let pct := MAX_WIN_PERCENTAGE cfg in
  exists regular sevens die_bet,
    bot_notices (snd (max_bet cfg env update b))
    = (bot_notices b
       ++ [NoticeMaxBet hb pct regular (max_win pct hb) sevens (max_win pct hb)
             die_bet (max_win pct hb)])%list
    /\ regular = calculate_max_bet pct hb false false
    /\ sevens == calculate_max_bet pct hb true false
    /\ die_bet = calculate_max_bet pct hb false true.
Proof.
  intros [Hgate1 Hgate2] Hg Hb pct. destruct b as [w notices spawned].
  cbn [bot_world] in Hgate1, Hgate2, Hg, Hb.
  unfold max_bet, get_game_account_balance, get_game_account_info. brun.
  bfields.
  rewrite Hgate1. simpl. rewrite Hgate2. simpl.
  rewrite Hg, get_radix_balance_run, Hb. bfields.
  eexists _, _, _. split; [reflexivity|].
  split; [reflexivity|]. split; [|reflexivity].
  unfold calculate_max_bet. apply sevens_cap_order.
Qed.

Lemma max_bet_shows_validator_bounds_witness :
  let b := {| bot_world := Example.world; bot_notices := [];
              bot_spawned := [] |} in
  exists regular sevens die_bet,
    bot_notices (snd (max_bet Example.cfg Example.env_win Example.update b))
    = [NoticeMaxBet 24000 5 regular (max_win 5 24000) sevens (max_win 5 24000)
         die_bet (max_win 5 24000)]
    /\ regular == 100 /\ sevens == 25 /\ die_bet == 240.
Proof.
  intros b.
  destruct (max_bet_shows_validator_bounds Example.cfg Example.env_win
              Example.update b Example.house 24000)
    as (regular & sevens & die_bet & Hn & Hr & Hs & Hd).
  - split; reflexivity.
  - reflexivity.
  - reflexivity.
  - exists regular, sevens, die_bet. split; [exact Hn|].
    subst regular die_bet. rewrite Hs.
    repeat split; vm_compute; reflexivity.
Defined.

(** ** Refunds *)

Lemma check_whitelist_run cfg (user_id : Z) (w : World) :
  check_whitelist cfg user_id w
  = (Ok (bool_decide (user_id ∈ whitelist w)
         || bool_decide (user_id = GAME_OWNER_TELEGRAM_ID cfg)), w).
Proof. reflexivity. Qed.

(** A refund asked for by a user who is neither whitelisted nor the owner
    changes nothing in the world, whatever the callback data. *)
Lemma refund_requires_whitelist cfg env (query : CallbackQuery) (b : Bot) :
  from_user_id query ∉ whitelist (bot_world b) ->
  from_user_id query <> GAME_OWNER_TELEGRAM_ID cfg ->
  bot_world (snd (handle_refund cfg env query b)) = bot_world b.
Proof.
  intros Hnw Hno. destruct b as [w notices spawned]. cbn [bot_world] in Hnw.
  unfold handle_refund. brun. bfields.
  destruct (data_parts query) as [|p0 [|p1 [|p2 [|p3 [|p4 l]]]]];
    try reflexivity.
  destruct (tok_float p1) as [ra|]; [|reflexivity].
  destruct (tok_int p2) as [n|]; [|reflexivity].
  destruct (tok_int p3) as [orig|]; [|reflexivity].
  destruct (bool_decide (from_user_id query = orig)); bfields; [|reflexivity].
  rewrite check_whitelist_run.
  rewrite (bool_decide_eq_false_2 _ Hnw), (bool_decide_eq_false_2 _ Hno).
  reflexivity.
Qed.

(** What a well-formed refund request of an eligible user does. *)
Lemma handle_refund_run (cfg : Config) (env : Env) (query : CallbackQuery)
    (b : Bot) (p0 p1 p2 p3 : Token) (refund_amount : Q) (num_spins : Z)
    (account : Account) (g : GameStats) :
  data_parts query = [p0; p1; p2; p3] ->
  tok_float p1 = Some refund_amount ->
  tok_int p2 = Some num_spins ->
  tok_int p3 = Some (from_user_id query) ->
  from_user_id query ∈ whitelist (bot_world b)
  \/ from_user_id query = GAME_OWNER_TELEGRAM_ID cfg ->
  users (bot_world b) !! from_user_id query = Some account ->
  game_stats (bot_world b) = Some g ->
  let w := bot_world b in
  let run := handle_refund cfg env query b in
  let w' := bot_world (snd run) in
  let answer := submit_answer cfg env (length (ledger_calls w)) in
  fst run = Ok tt
  /\ ledger_calls w'
     = (ledger_calls w
        ++ [SubmitTransaction
              (settle_spin_manifest (game_address g) (radix_address account)
                 refund_amount)
              (game_address g) (game_private_key g) (game_public_key g)])%list
  /\ (res_error answer = None ->
      (forall x, x ∈ whitelist w' <-> x ∈ whitelist w /\ x <> from_user_id query)
      /\ winnings_paid w' = winnings_paid w + (refund_amount - 0.5)
      /\ NoticeRefundProcessed refund_amount ∈ bot_notices (snd run))
  /\ (forall error, res_error answer = Some error ->
        whitelist w' = whitelist w
        /\ game_stats w' = game_stats w
        /\ bot_notices (snd run)
           = (bot_notices b ++ [NoticeRefundFailed error])%list).
Proof.
  intros Hparts Hra Hn Horig Hwl Hu Hg w run w' answer.
  subst w run w' answer. destruct b as [w notices spawned].
  cbn [bot_world] in *. destruct w; simpl in Hu, Hg, Hwl; subst.
  unfold handle_refund. brun. bfields.
  rewrite Hparts, Hra, Hn, Horig.
  rewrite (bool_decide_eq_true_2 _ eq_refl). bfields.
  rewrite check_whitelist_run. bfields.
  assert (Hok : bool_decide (from_user_id query ∈ whitelist0)
                || bool_decide (from_user_id query = GAME_OWNER_TELEGRAM_ID cfg)
                = true).
  { destruct Hwl as [H | H]; rewrite (bool_decide_eq_true_2 _ H);
      [reflexivity|apply orb_true_r]. }
  rewrite Hok. bfields. rewrite Hu. bfields.
  rewrite submit_transaction_run. bfields.
  destruct (res_error (submit_answer cfg env (length ledger_calls0)))
    as [error|] eqn:Herr; bfields.
  - split; [reflexivity|]. split; [reflexivity|].
    split; [discriminate|]. intros e [= <-]. repeat split.
  - destruct (bool_decide (num_spins = 0%Z)); bfields;
      (split; [reflexivity|]); (split; [reflexivity|]);
      (split; [|intros e; discriminate]); intros _;
      (split; [intros x; apply whitelist_filter_spec|]);
      (split; [reflexivity|]);
      rewrite !elem_of_app, !list_elem_of_singleton; auto.
Qed.



(** [X24] One refund per whitelisting.  After a refund that went through for
    a user who is not the owner, every further refund request pressed by that
    user is turned away without a ledger call or any other change of the
    world; so is every refund request of a user who is neither whitelisted nor
    the owner. *)
Theorem refund_only_once (cfg : Config) (env : Env) (query : CallbackQuery)
    (b : Bot) (p0 p1 p2 p3 : Token) (refund_amount : Q) (num_spins : Z)
    (account : Account) (g : GameStats) :
  data_parts query = [p0; p1; p2; p3] ->
  tok_float p1 = Some refund_amount ->
  tok_int p2 = Some num_spins ->
  tok_int p3 = Some (from_user_id query) ->
  from_user_id query ∈ whitelist (bot_world b) ->
  from_user_id query <> GAME_OWNER_TELEGRAM_ID cfg ->
  users (bot_world b) !! from_user_id query = Some account ->
  game_stats (bot_world b) = Some g ->
  res_error (submit_answer cfg env (length (ledger_calls (bot_world b)))) = None ->
  let b1 := snd (handle_refund cfg env query b) in
  (from_user_id query ∉ whitelist (bot_world b1))
  /\ (forall again : CallbackQuery,
        from_user_id again = from_user_id query ->
        bot_world (snd (handle_refund cfg env again b1)) = bot_world b1).
Proof.
  intros Hparts Hra Hn Horig Hwl Hno Hu Hg Herr b1.
  destruct (handle_refund_run cfg env query b p0 p1 p2 p3 refund_amount
              num_spins account g Hparts Hra Hn Horig (or_introl Hwl) Hu Hg)
    as (_ & _ & Hdone & _).
  destruct (Hdone Herr) as (Hmembers & _).
  assert (Hout : from_user_id query ∉ whitelist (bot_world b1)).
  { intros Hin. apply Hmembers in Hin as [_ Hne]. congruence. }
  split; [exact Hout|].
  intros again Hsame. apply refund_requires_whitelist; rewrite Hsame; assumption.
Qed.

Lemma refund_only_once_witness :
  let query := {| from_user_id := 7;
                  data_parts := [Example.word "refund";
                                 Example.number "15.0" 15 None;
                                 Example.number "3" 3 (Some 3%Z);
                                 Example.number "7" 7 (Some 7%Z)];
                  reply_to_user_id := Some 7%Z |} in
  let b := {| bot_world := Example.world; bot_notices := [];
              bot_spawned := [] |} in
  let b1 := snd (handle_refund Example.cfg Example.env_win query b) in
  bot_world (snd (handle_refund Example.cfg Example.env_win query b1))
  = bot_world b1.
Proof.
  intros query b b1.
  destruct (refund_only_once Example.cfg Example.env_win query b
              (Example.word "refund") (Example.number "15.0" 15 None)
              (Example.number "3" 3 (Some 3%Z))
              (Example.number "7" 7 (Some 7%Z)) 15 3
              Example.alice Example.house)
    as [_ Hagain].
  - reflexivity.
  - reflexivity.
  - reflexivity.
  - reflexivity.
  - apply (bool_decide_unpack _). vm_compute. exact I.
  - discriminate.
  - reflexivity.
  - reflexivity.
  - vm_compute. reflexivity.
  - apply Hagain. reflexivity.
Defined.

(** ** The session guard of [/spin_7s] and [/die] *)







(** ** The "again" buttons *)



(** [X27] A press whose callback data has the right shape but cannot be
    converted (the amount is not a number, the count is not an integer) or
    whose replied-to message is gone ends in the handler's [except] branch:
    the user is shown the error message and the presser's flag is cleared,
    also when a play of that user is in flight and holds the flag; nothing
    else changes. *)
Theorem again_button_unreadable (cfg : Config) (env : Env) (v : Variant)
    (query : CallbackQuery) (b : Bot) (part_amount part_count : Token) :
  again_parts v (data_parts query) = Some (part_amount, part_count) ->
  tok_float part_amount = None
  \/ tok_int part_count = None
  \/ reply_to_user_id query = None ->
  snd (handle_again cfg env v query b)
  = {| bot_world :=
         set_ongoing_spins (fun m => <[from_user_id query := false]> m)
           (bot_world b);
       bot_notices := (bot_notices b ++ [NoticeAgainError v])%list;
       bot_spawned := bot_spawned b |}.
Proof.
  intros Hparts Hbad. destruct b as [w notices spawned].
  unfold handle_again. brun. bfields. rewrite Hparts.
  destruct (tok_float part_amount) as [amount|]; [|reflexivity].
  destruct (tok_int part_count) as [num_spins|]; [|reflexivity].
  destruct (reply_to_user_id query) as [orig|]; [|reflexivity].
  destruct Hbad as [H | [H | H]]; discriminate.
Qed.

Lemma again_button_unreadable_witness :
  let query := {| from_user_id := 7;
                  data_parts := [Example.word "spin"; Example.word "again";
                                 Example.number "10.0" 10 None;
                                 Example.number "3" 3 (Some 3%Z)];
                  reply_to_user_id := None |} in
  let busy := snd (mark_ongoing 7 true Example.world) in
  let b := {| bot_world := busy; bot_notices := []; bot_spawned := [] |} in
  is_ongoing (ongoing_spins busy) 7 = true
  /\ is_ongoing
       (ongoing_spins
          (bot_world (snd (handle_spin_again Example.cfg Example.env_win
                             query b)))) 7 = false.
Proof.
  intros query busy b. split; [reflexivity|].
  unfold handle_spin_again.
  rewrite (again_button_unreadable Example.cfg Example.env_win Standard query b
             (Example.number "10.0" 10 None) (Example.number "3" 3 (Some 3%Z))
             eq_refl (or_intror (or_intror eq_refl))).
  reflexivity.
Defined.

(** [X28] What an "again" button runs.  For readable callback data pressed by
    the original spinner while no play of theirs is in flight, with the user
    row present and the balance read: when the balance is below
    [amount * num_spins + 0.5] no batch is run; otherwise the batch routine of
    the variant runs with the amount and the count of the callback data as
    they are, right after the balance query: the admission checks, the range
    of the count and the maximum bet are not looked at again. *)
Theorem again_button_runs_batch (cfg : Config) (env : Env) (v : Variant)
    (query : CallbackQuery) (b : Bot) (part_amount part_count : Token)
    (amount : Q) (num_spins : Z) (account : Account) (balance : Q) :
  again_parts v (data_parts query) = Some (part_amount, part_count) ->
  tok_float part_amount = Some amount ->
  tok_int part_count = Some num_spins ->
  reply_to_user_id query = Some (from_user_id query) ->
  is_ongoing (ongoing_spins (bot_world b)) (from_user_id query) = false ->
  users (bot_world b) !! from_user_id query = Some account ->
  balance_answer cfg env (length (ledger_calls (bot_world b)))
    (radix_address account) = Ok balance ->
  let user_id := from_user_id query in
  let w' := bot_world (snd (handle_again cfg env v query b)) in
  let started :=
    traced (BalanceQuery (radix_address account))
      (set_ongoing_spins (fun m => <[user_id := true]> m) (bot_world b)) in
  (balance < amount * inject_Z num_spins + 0.5 ->
   ledger_calls w' = ledger_calls started
   /\ game_stats w' = game_stats (bot_world b)
   /\ is_ongoing (ongoing_spins w') user_id = false)
  /\ (amount * inject_Z num_spins + 0.5 <= balance ->
      w' = set_ongoing_spins (fun m => <[user_id := false]> m)
             (snd (process_batch cfg env (rules_of v) amount user_id
                     num_spins started))).
Proof.
  intros Hparts Ha Hn Horig Hfree Hu Hb user_id w' started.
  subst user_id w' started. destruct b as [w notices spawned].
  cbn [bot_world] in *.
  unfold handle_again. brun. bfields.
  rewrite Hparts, Ha, Hn, Horig.
  rewrite (bool_decide_eq_true_2 _ eq_refl). bfields.
  rewrite Hfree. bfields. rewrite Hu. bfields.
  rewrite get_radix_balance_run. bfields. rewrite Hb. bfields.
  split.
  - intros Hlow. apply Qltb_true in Hlow. rewrite Hlow.
    destruct v; bfields; repeat split; apply is_ongoing_marked.
  - intros Hcover. apply Qltb_false in Hcover. rewrite Hcover. bfields.
    pose proof (process_batch_frame cfg env (rules_of v) amount
                  (from_user_id query) num_spins
                  (traced (BalanceQuery (radix_address account))
                     (set_ongoing_spins
                        (fun m => <[from_user_id query := true]> m) w)))
      as (Hok & _).
    destruct (process_batch _ _ _ _ _ _ _) as [r w3].
    cbn [fst] in Hok. subst r. reflexivity.
Qed.

Lemma again_button_runs_batch_witness :
  let query := {| from_user_id := 7;
                  data_parts := [Example.word "spin"; Example.word "again";
                                 Example.number "200.0" 200 None;
                                 Example.number "2" 2 (Some 2%Z)];
                  reply_to_user_id := Some 7%Z |} in
  let b := {| bot_world := Example.world; bot_notices := [];
              bot_spawned := [] |} in
  let w' := bot_world (snd (handle_spin_again Example.cfg Example.env_lose
                              query b)) in
  calculate_max_bet 5 24000 false false == 100
  /\ submissions (ledger_calls w')
     = [SubmitTransaction
          (settle_spin_manifest "account_house" "account_alice" (0 - 200 * 2))
          "account_alice" "private_alice" "public_alice"].
Proof.
  intros query b w'. split; [vm_compute; reflexivity|].
  destruct (again_button_runs_batch Example.cfg Example.env_lose Standard
              query b (Example.number "200.0" 200 None)
              (Example.number "2" 2 (Some 2%Z)) 200 2 Example.alice 500
              eq_refl eq_refl eq_refl eq_refl eq_refl eq_refl eq_refl)
    as [_ Hrun].
  unfold w', handle_spin_again. rewrite Hrun by (vm_compute; discriminate).
  vm_compute. reflexivity.
Defined.

(** ** Account creation *)

Lemma addresses_unique_insert (u : gmap Z Account) (user_id : Z)
    (fresh : Account) :
  u !! user_id = None ->
  map_Forall (fun _ a => radix_address a <> radix_address fresh) u ->
  addresses_unique u ->
  addresses_unique (<[user_id := fresh]> u).
Proof.
  intros Hnone Hnew Huniq i j a b Hi Hj Hab.
  destruct (decide (i = user_id)) as [->|Hi'];
    destruct (decide (j = user_id)) as [->|Hj']; [reflexivity| | |].
  - rewrite lookup_insert_eq in Hi. injection Hi as <-.
    rewrite lookup_insert_ne in Hj by congruence.
    exfalso. apply (Hnew j b Hj). congruence.
  - rewrite lookup_insert_eq in Hj. injection Hj as <-.
    rewrite lookup_insert_ne in Hi by congruence.
    exfalso. apply (Hnew i a Hi). congruence.
  - rewrite lookup_insert_ne in Hi by congruence.
    rewrite lookup_insert_ne in Hj by congruence.
    exact (Huniq i j a b Hi Hj Hab).
Qed.

(** [X29] [/create_spinner] either leaves the tables of users and
    transactions as they are, or (the user had no row, the handler returns
    normally) adds the generated account under the user's id together with one
    "deposit" record of 10000.0.  A row that exists is never overwritten, an
    insert that would repeat an address raises with nothing written, and so
    the addresses of the table stay pairwise distinct. *)
Theorem create_account_keeps_rows (cfg : Config) (update : Update)
    (fresh : Account) (b : Bot) :
  let user_id := effective_user_id update in
  let run := create_account cfg update fresh b in
  let w := bot_world b in
  let w' := bot_world (snd run) in
  (forall i a, users w !! i = Some a -> users w' !! i = Some a)
  /\ (addresses_unique (users w) -> addresses_unique (users w'))
  /\ ((users w' = users w /\ transactions w' = transactions w)
      \/ (fst run = Ok tt
          /\ users w !! user_id = None
          /\ users w' = <[user_id := fresh]> (users w)
          /\ transactions w'
             = (transactions w
                  ++ [{| tr_telegram_id := user_id;
                         tr_action := "deposit";
                         tr_amount := 10000.0 |}])%list))
  /\ ((exists i a, users w !! i = Some a
                   /\ radix_address a = radix_address fresh) ->
      users w' = users w /\ transactions w' = transactions w).
Proof.
  intros user_id run w w'. subst user_id run w w'.
  destruct b as [w notices spawned]. unfold create_account. brun. bfields.
  destruct (check_maintenance_mode_run cfg update w)
    as (ok1 & w1 & -> & (_ & _ & Hu1 & _ & _ & Ht1 & _)).
  assert (Hsame : forall (w2 : World),
            users w2 = users w -> transactions w2 = transactions w ->
            (forall i a, users w !! i = Some a -> users w2 !! i = Some a)
            /\ (addresses_unique (users w) -> addresses_unique (users w2))
            /\ ((users w2 = users w /\ transactions w2 = transactions w)
                \/ False)
            /\ True).
  { intros w2 Hu Ht. rewrite Hu, Ht. repeat split; auto. }
  destruct ok1; bfields.
  2:{ repeat split; try (left; split); try assumption;
        rewrite ?Hu1; auto. }
  destruct (check_chat_permissions_run cfg update w1)
    as (ok2 & w2 & -> & (_ & _ & Hu2 & _ & _ & Ht2 & _)).
  rewrite Hu1 in Hu2. rewrite Ht1 in Ht2. clear Hsame Hu1 Ht1.
  destruct ok2; bfields.
  2:{ repeat split; try (left; split); try assumption;
        rewrite ?Hu2; auto. }
  destruct (users w2 !! effective_user_id update) as [account|] eqn:Hrow;
    bfields.
  { repeat split; try (left; split); try assumption; rewrite ?Hu2; auto. }
  rewrite Hu2 in Hrow.
  destruct (bool_decide _) eqn:Hnew; bfields.
  - apply bool_decide_eq_true_1 in Hnew. rewrite Hu2 in Hnew.
    rewrite Hu2, Ht2. split; [|split; [|split]].
    + intros i a Hi. rewrite lookup_insert_ne; [exact Hi|]. congruence.
    + apply addresses_unique_insert; assumption.
    + right. repeat split. exact Hrow.
    + intros (i & a & Hi & Ha). exfalso. exact (Hnew i a Hi Ha).
  - repeat split; try (left; split); try assumption; rewrite ?Hu2; auto.
Qed.

Lemma create_account_keeps_rows_witness :
  let newcomer := {| effective_user_id := 8;
                     chat_type := "supergroup";
                     chat_username_allowed := true;
                     command := "/create_spinner" |} in
  let fresh := {| radix_address := "account_bob";
                  private_key := "private_bob";
                  public_key := "public_bob" |} in
  let b := {| bot_world := Example.world; bot_notices := [];
              bot_spawned := [] |} in
  addresses_unique (users Example.world)
  /\ addresses_unique
       (users (bot_world (snd (create_account Example.cfg newcomer fresh b))))
  /\ users (bot_world (snd (create_account Example.cfg newcomer fresh b)))
       !! 8%Z = Some fresh
  /\ fst (create_account Example.cfg newcomer Example.alice b)
     = Raise "IntegrityError".
Proof.
  intros newcomer fresh b.
  assert (Huniq : addresses_unique (users Example.world)).
  { intros i j a a' Hi Hj _. cbn [users Example.world] in Hi, Hj.
    apply lookup_singleton_Some in Hi as [<- _].
    apply lookup_singleton_Some in Hj as [<- _]. reflexivity. }
  split; [exact Huniq|]. split.
  - destruct (create_account_keeps_rows Example.cfg newcomer fresh b)
      as (_ & Hkeep & _).
    exact (Hkeep Huniq).
  - split; vm_compute; reflexivity.
Defined.
